(** * The Gaphor UML code generator ([utils/model/gen_uml.py])

    A shallow embedding of the resolution passes of [generate]: metaclass
    and simple-attribute filtering, association-end resolution, derived
    union aggregation and the order in which results are handed to the
    writer.  Python exceptions are values of an error monad, [dict]s are
    insertion-ordered association lists, element objects are records whose
    generator-assigned attributes are optional fields, and the calls made on
    the writer are collected in a trace. *)

From Stdlib Require Import ZArith Ascii String.
From stdpp Require Import base decidable option list strings.

Open Scope string_scope.
Open Scope list_scope.

(** ** Python exceptions and the error monad *)

(** [RecursionError] is what the interpreter raises when a recursion goes
    deeper than it allows.  [DanglingReference] is not a Python exception:
    object references are modelled as keys of the object store, and it
    marks a key without an object.  No run raises it
    ([generate_not_dangling]). *)
Inductive exn :=
| KeyError (key : option string)
| ValueError (message : string)
| AssertionError (message : string)
| TypeError (message : string)
| IndexError (message : string)
| AttributeError (message : string)
| RecursionError
| DanglingReference (ref : string).

Inductive result (A : Type) :=
| Ok (a : A)
| Raise (e : exn).
Arguments Ok {A} a.
Arguments Raise {A} e.

Global Instance result_ret : MRet result := fun _ a => Ok a.
Global Instance result_bind : MBind result := fun _ _ f m =>
  match m with
  | Ok a => f a
  | Raise e => Raise e
  end.

(** A [for] loop whose body may raise: the first exception ends the loop. *)
Fixpoint for_each {A S : Type} (body : S -> A -> result S) (xs : list A) (s : S)
  : result S :=
  match xs with
  | [] => Ok s
  | x :: rest => s' ← body s x; for_each body rest s'
  end.

(** ** Python values: truthiness and [str()] *)

(** [bool(v)] for a value that is [None] or a [str]. *)
Definition truthy (v : option string) : bool :=
  match v with
  | Some s => bool_decide (s <> "")
  | None => false
  end.

(** [v or d] for such a value. *)
Definition or_else (v : option string) (d : string) : string :=
  if truthy v then default d v else d.

(** [str(v)], as the [%s] and f-string conversions compute it. *)
Definition str (v : option string) : string := default "None" v.

(** ** Insertion-ordered dictionaries *)

Abbreviation dict K V := (list (K * V)).

Section Dict.
Context {K V : Type} `{EqDecision K}.

(** [d.get(k)] *)
Fixpoint dict_get (k : K) (d : dict K V) : option V :=
  match d with
  | [] => None
  | (k', v) :: rest => if decide (k' = k) then Some v else dict_get k rest
  end.

(** [k in d] *)
Definition dict_in (k : K) (d : dict K V) : bool := bool_decide (is_Some (dict_get k d)).

(** [d.values()] and the iteration order of the keys *)
Definition dict_values (d : dict K V) : list V := d.*2.
Definition dict_keys (d : dict K V) : list K := d.*1.

(** [d[k] = v] *)
Fixpoint dict_set (k : K) (v : V) (d : dict K V) : dict K V :=
  match d with
  | [] => [(k, v)]
  | (k', v') :: rest =>
      if decide (k' = k) then (k, v) :: rest else (k', v') :: dict_set k v rest
  end.

(** In-place change of the object stored under [k]. *)
Definition dict_update (k : K) (f : V -> V) (d : dict K V) : dict K V :=
  (fun kv => if decide (kv.1 = k) then (kv.1, f kv.2) else kv) <$> d.

Definition dict_remove (k : K) (d : dict K V) : dict K V :=
  filter (fun kv => kv.1 <> k) d.
End Dict.

(** [d[k]]: a missing key raises [KeyError].  Element identifiers are
    strings; a reference that is absent reads as [None], which is never a
    key. *)
Definition getitem {V} (d : dict string V) (k : option string) : result V :=
  match k with
  | Some key =>
      match dict_get key d with
      | Some v => Ok v
      | None => Raise (KeyError k)
      end
  | None => Raise (KeyError None)
  end.

(** [del d[k]] *)
Definition delitem {V} (d : dict string V) (k : string) : result (dict string V) :=
  if dict_in k d then Ok (dict_remove k d) else Raise (KeyError (Some k)).

(** ** Elements of the parsed model *)

(** What [filter_out_metaclasses] reads of an arbitrary element: its
    identifier, its type tag and its ["type"] reference. *)
Record element := {
  el_id : string;
  el_tag : string;
  el_type : option string;
}.

(** A class after the enrichment passes.  Looking up a field that the
    model file does not give yields [None]. *)
Record Class := {
  c_id : string;
  c_name : option string;
  c_stereotypeName : option string;
  c_ownedAttribute : option (list string);
  c_ownedOperation : option (list string);
}.

(** An [Extension] with its [memberEnd] reference list. *)
Record Extension := {
  x_id : string;
  x_memberEnd : list string;
}.

(** ** [filter_out_metaclasses] *)

(** The inner loop: the member ends that have a ["type"], each paired with
    the element that its [type] attribute is set to. *)
Fixpoint extension_ends (all_elements : dict string element) (memberEnd : list string)
  : result (list (element * element)) :=
  match memberEnd with
  | [] => Ok []
  | r :: rest =>
      end_ ← getitem all_elements (Some r);
      if truthy (el_type end_) then
        ty ← getitem all_elements (el_type end_);
        ends ← extension_ends all_elements rest;
        Ok ((end_, ty) :: ends)
      else extension_ends all_elements rest
  end.

(** The body of the outer loop for one extension [e]. *)
Definition filter_out_metaclass (all_elements : dict string element)
    (classes : dict string Class) (e : Extension) : result (dict string Class) :=
  ends ← extension_ends all_elements (x_memberEnd e);
  match ends with
  | [] => Ok classes
  | (_, ty) :: _ => delitem classes (el_id ty)
  end.

Definition filter_out_metaclasses (classes : dict string Class)
    (extensions : dict string Extension) (all_elements : dict string element)
  : result (dict string Class) :=
  for_each (filter_out_metaclass all_elements) (dict_values extensions) classes.

(** ** [filter_out_simple_attributes] *)

Definition is_SimpleAttribute (c : Class) : bool :=
  bool_decide (c_stereotypeName c = Some "SimpleAttribute").

Definition filter_out_simple_attributes (classes : dict string Class) : dict string Class :=
  filter (fun kc => is_SimpleAttribute kc.2 = false) classes.

(** ** Strings *)

(** [s.replace(c, "")] for a single character [c]. *)
Fixpoint remove_char (c : ascii) (s : string) : string :=
  match s with
  | "" => ""
  | String a rest =>
      if Ascii.eqb a c then remove_char c rest else String a (remove_char c rest)
  end.

(** [value.replace(" ", "").replace("\n", "").replace("\r", "")] *)
Definition remove_whitespace (value : string) : string :=
  remove_char "013"%char (remove_char "010"%char (remove_char " "%char value)).

(** [s.split(c)]: the pieces between the occurrences of [c]; never empty. *)
Fixpoint split (c : ascii) (s : string) : list string :=
  match s with
  | "" => [""]
  | String a rest =>
      if Ascii.eqb a c then "" :: split c rest
      else match split c rest with
           | w :: ws => String a w :: ws
           | [] => [String a ""]
           end
  end.

(** ** Properties and the attributes the generator assigns to them *)

Record Feature := { f_name : option string }.

(** A slot of an applied stereotype once [resolve] has replaced its
    [definingFeature] reference by the feature. *)
Record Slot := {
  slot_definingFeature : option Feature;
  slot_value : option string;
}.

Record Stereotype := { st_slot : option (list Slot) }.

(** The fields of a [Property] element that come from the model file. *)
Record PropertyValues := {
  v_id : string;
  v_name : option string;
  v_type : option string;
  v_class_ : option string;
  v_lowerValue : option string;
  v_upperValue : option string;
  v_isDerived : option string;
  v_aggregation : option string;
  v_appliedStereotype : option (list Stereotype);
  v_association : option string;
}.

(** A resolved lower multiplicity: the string of the model, or the integer
    [0] that replaces ["*"]. *)
Inductive bound :=
| BStr (s : string)
| BInt (z : Z).

(** A [Property] object.  The fields after [p_values] are the attributes
    that the generator assigns; reading one that was never assigned falls
    back to the permissive field lookup and gives [None]. *)
Record Property := {
  p_values : PropertyValues;
  p_type : option Class;
  p_class_ : option Class;
  p_is_simple_attribute : option bool;
  p_navigable : option string;
  p_class_name : option string;
  p_opposite_class_name : option string;
  p_lower : option bound;
  p_upper : option string;
  p_subsets : option (list string);
  p_composite : option bool;
  p_derived : option Z;
  p_redefines : option string;
  p_union : option (list string);
  p_written : bool;
  p_typeValue : option string;
}.

(** A property as the bucket pass leaves it: no attribute assigned yet,
    [written] set to [False]. *)
Definition new_property (v : PropertyValues) : Property :=
  {| p_values := v;
     p_type := None;
     p_class_ := None;
     p_is_simple_attribute := None;
     p_navigable := None;
     p_class_name := None;
     p_opposite_class_name := None;
     p_lower := None;
     p_upper := None;
     p_subsets := None;
     p_composite := None;
     p_derived := None;
     p_redefines := None;
     p_union := None;
     p_written := false;
     p_typeValue := None |}.

(** Attribute assignments [p.attr = x]. *)
Definition set_type (x : option Class) (p : Property) : Property :=
  {| p_values := p_values p; p_type := x; p_class_ := p_class_ p;
     p_is_simple_attribute := p_is_simple_attribute p;
     p_navigable := p_navigable p; p_class_name := p_class_name p;
     p_opposite_class_name := p_opposite_class_name p; p_lower := p_lower p;
     p_upper := p_upper p; p_subsets := p_subsets p;
     p_composite := p_composite p; p_derived := p_derived p;
     p_redefines := p_redefines p; p_union := p_union p;
     p_written := p_written p; p_typeValue := p_typeValue p |}.
Definition set_class_ (x : option Class) (p : Property) : Property :=
  {| p_values := p_values p; p_type := p_type p; p_class_ := x;
     p_is_simple_attribute := p_is_simple_attribute p;
     p_navigable := p_navigable p; p_class_name := p_class_name p;
     p_opposite_class_name := p_opposite_class_name p; p_lower := p_lower p;
     p_upper := p_upper p; p_subsets := p_subsets p;
     p_composite := p_composite p; p_derived := p_derived p;
     p_redefines := p_redefines p; p_union := p_union p;
     p_written := p_written p; p_typeValue := p_typeValue p |}.
Definition set_is_simple_attribute (x : option bool) (p : Property) : Property :=
  {| p_values := p_values p; p_type := p_type p; p_class_ := p_class_ p;
     p_is_simple_attribute := x; p_navigable := p_navigable p;
     p_class_name := p_class_name p;
     p_opposite_class_name := p_opposite_class_name p; p_lower := p_lower p;
     p_upper := p_upper p; p_subsets := p_subsets p;
     p_composite := p_composite p; p_derived := p_derived p;
     p_redefines := p_redefines p; p_union := p_union p;
     p_written := p_written p; p_typeValue := p_typeValue p |}.
Definition set_navigable (x : option string) (p : Property) : Property :=
  {| p_values := p_values p; p_type := p_type p; p_class_ := p_class_ p;
     p_is_simple_attribute := p_is_simple_attribute p; p_navigable := x;
     p_class_name := p_class_name p;
     p_opposite_class_name := p_opposite_class_name p; p_lower := p_lower p;
     p_upper := p_upper p; p_subsets := p_subsets p;
     p_composite := p_composite p; p_derived := p_derived p;
     p_redefines := p_redefines p; p_union := p_union p;
     p_written := p_written p; p_typeValue := p_typeValue p |}.
Definition set_class_name (x : option string) (p : Property) : Property :=
  {| p_values := p_values p; p_type := p_type p; p_class_ := p_class_ p;
     p_is_simple_attribute := p_is_simple_attribute p;
     p_navigable := p_navigable p; p_class_name := x;
     p_opposite_class_name := p_opposite_class_name p; p_lower := p_lower p;
     p_upper := p_upper p; p_subsets := p_subsets p;
     p_composite := p_composite p; p_derived := p_derived p;
     p_redefines := p_redefines p; p_union := p_union p;
     p_written := p_written p; p_typeValue := p_typeValue p |}.
Definition set_opposite_class_name (x : option string) (p : Property) : Property :=
  {| p_values := p_values p; p_type := p_type p; p_class_ := p_class_ p;
     p_is_simple_attribute := p_is_simple_attribute p;
     p_navigable := p_navigable p; p_class_name := p_class_name p;
     p_opposite_class_name := x; p_lower := p_lower p; p_upper := p_upper p;
     p_subsets := p_subsets p; p_composite := p_composite p;
     p_derived := p_derived p; p_redefines := p_redefines p;
     p_union := p_union p; p_written := p_written p;
     p_typeValue := p_typeValue p |}.
Definition set_lower (x : option bound) (p : Property) : Property :=
  {| p_values := p_values p; p_type := p_type p; p_class_ := p_class_ p;
     p_is_simple_attribute := p_is_simple_attribute p;
     p_navigable := p_navigable p; p_class_name := p_class_name p;
     p_opposite_class_name := p_opposite_class_name p; p_lower := x;
     p_upper := p_upper p; p_subsets := p_subsets p;
     p_composite := p_composite p; p_derived := p_derived p;
     p_redefines := p_redefines p; p_union := p_union p;
     p_written := p_written p; p_typeValue := p_typeValue p |}.
Definition set_upper (x : option string) (p : Property) : Property :=
  {| p_values := p_values p; p_type := p_type p; p_class_ := p_class_ p;
     p_is_simple_attribute := p_is_simple_attribute p;
     p_navigable := p_navigable p; p_class_name := p_class_name p;
     p_opposite_class_name := p_opposite_class_name p; p_lower := p_lower p;
     p_upper := x; p_subsets := p_subsets p; p_composite := p_composite p;
     p_derived := p_derived p; p_redefines := p_redefines p;
     p_union := p_union p; p_written := p_written p;
     p_typeValue := p_typeValue p |}.
Definition set_subsets (x : option (list string)) (p : Property) : Property :=
  {| p_values := p_values p; p_type := p_type p; p_class_ := p_class_ p;
     p_is_simple_attribute := p_is_simple_attribute p;
     p_navigable := p_navigable p; p_class_name := p_class_name p;
     p_opposite_class_name := p_opposite_class_name p; p_lower := p_lower p;
     p_upper := p_upper p; p_subsets := x; p_composite := p_composite p;
     p_derived := p_derived p; p_redefines := p_redefines p;
     p_union := p_union p; p_written := p_written p;
     p_typeValue := p_typeValue p |}.
Definition set_composite (x : option bool) (p : Property) : Property :=
  {| p_values := p_values p; p_type := p_type p; p_class_ := p_class_ p;
     p_is_simple_attribute := p_is_simple_attribute p;
     p_navigable := p_navigable p; p_class_name := p_class_name p;
     p_opposite_class_name := p_opposite_class_name p; p_lower := p_lower p;
     p_upper := p_upper p; p_subsets := p_subsets p; p_composite := x;
     p_derived := p_derived p; p_redefines := p_redefines p;
     p_union := p_union p; p_written := p_written p;
     p_typeValue := p_typeValue p |}.
Definition set_derived (x : option Z) (p : Property) : Property :=
  {| p_values := p_values p; p_type := p_type p; p_class_ := p_class_ p;
     p_is_simple_attribute := p_is_simple_attribute p;
     p_navigable := p_navigable p; p_class_name := p_class_name p;
     p_opposite_class_name := p_opposite_class_name p; p_lower := p_lower p;
     p_upper := p_upper p; p_subsets := p_subsets p;
     p_composite := p_composite p; p_derived := x;
     p_redefines := p_redefines p; p_union := p_union p;
     p_written := p_written p; p_typeValue := p_typeValue p |}.
Definition set_redefines (x : option string) (p : Property) : Property :=
  {| p_values := p_values p; p_type := p_type p; p_class_ := p_class_ p;
     p_is_simple_attribute := p_is_simple_attribute p;
     p_navigable := p_navigable p; p_class_name := p_class_name p;
     p_opposite_class_name := p_opposite_class_name p; p_lower := p_lower p;
     p_upper := p_upper p; p_subsets := p_subsets p;
     p_composite := p_composite p; p_derived := p_derived p; p_redefines := x;
     p_union := p_union p; p_written := p_written p;
     p_typeValue := p_typeValue p |}.
Definition set_union (x : option (list string)) (p : Property) : Property :=
  {| p_values := p_values p; p_type := p_type p; p_class_ := p_class_ p;
     p_is_simple_attribute := p_is_simple_attribute p;
     p_navigable := p_navigable p; p_class_name := p_class_name p;
     p_opposite_class_name := p_opposite_class_name p; p_lower := p_lower p;
     p_upper := p_upper p; p_subsets := p_subsets p;
     p_composite := p_composite p; p_derived := p_derived p;
     p_redefines := p_redefines p; p_union := x; p_written := p_written p;
     p_typeValue := p_typeValue p |}.
Definition set_written (x : bool) (p : Property) : Property :=
  {| p_values := p_values p; p_type := p_type p; p_class_ := p_class_ p;
     p_is_simple_attribute := p_is_simple_attribute p;
     p_navigable := p_navigable p; p_class_name := p_class_name p;
     p_opposite_class_name := p_opposite_class_name p; p_lower := p_lower p;
     p_upper := p_upper p; p_subsets := p_subsets p;
     p_composite := p_composite p; p_derived := p_derived p;
     p_redefines := p_redefines p; p_union := p_union p; p_written := x;
     p_typeValue := p_typeValue p |}.
Definition set_typeValue (x : option string) (p : Property) : Property :=
  {| p_values := p_values p; p_type := p_type p; p_class_ := p_class_ p;
     p_is_simple_attribute := p_is_simple_attribute p;
     p_navigable := p_navigable p; p_class_name := p_class_name p;
     p_opposite_class_name := p_opposite_class_name p; p_lower := p_lower p;
     p_upper := p_upper p; p_subsets := p_subsets p;
     p_composite := p_composite p; p_derived := p_derived p;
     p_redefines := p_redefines p; p_union := p_union p;
     p_written := p_written p; p_typeValue := x |}.

Definition p_id (p : Property) := v_id (p_values p).
Definition p_name (p : Property) := v_name (p_values p).

Record Association := {
  as_id : string;
  as_memberEnd : list string;
}.

Record Operation := {
  o_id : string;
  o_name : option string;
  o_class_name : option string;
}.

(** ** [parse_association_tags] *)

Definition defining_feature_name (slot : Slot) : result (option string) :=
  match slot_definingFeature slot with
  | Some f => Ok (f_name f)
  | None => Raise (AttributeError "'NoneType' object has no attribute 'name'")
  end.

Definition stripped_value (slot : Slot) : result string :=
  match slot_value slot with
  | Some value => Ok (remove_whitespace value)
  | None => Raise (AttributeError "'NoneType' object has no attribute 'replace'")
  end.

Definition parse_slot (tags : list string * option string) (slot : Slot)
  : result (list string * option string) :=
  let '(subsets, redefines) := tags in
  name ← defining_feature_name slot;
  subsets ← (if bool_decide (name = Some "subsets")
             then value ← stripped_value slot; Ok (split ","%char value)
             else Ok subsets);
  redefines ← (if bool_decide (name = Some "redefines")
               then value ← stripped_value slot; Ok (Some value)
               else Ok redefines);
  Ok (subsets, redefines).

Definition parse_association_tags (appliedStereotypes : option (list Stereotype))
  : result (list string * option string) :=
  for_each
    (fun tags stereotype => for_each parse_slot (default [] (st_slot stereotype)) tags)
    (default [] appliedStereotypes) ([], None).

(** ** The calls that [generate] makes on the writer, and [msg] *)

Inductive call :=
| add_comment (text : string)
| add_classdef (c : Class)
| add_attribute (a : Property) (enumerations : bool)
| add_association (e1 e2 : Property)
| add_derivedunion (d : Property)
| add_redefine (r : Property)
| add_operation (o : Operation)
| write (outfile : option string) (header : string)
| msg (text : string).

(** ** The state of [generate]

    [properties] is the object store: a [Property] object is referred to by
    its key, and the registries hold such references. *)
Record state := {
  properties : dict string Property;
  derivedattributes : dict (option string) string;
  derivedunions : dict (option string) string;
  redefines : list string;
  calls : list call;
}.

Definition emit (c : call) (st : state) : state :=
  {| properties := properties st; derivedattributes := derivedattributes st;
     derivedunions := derivedunions st; redefines := redefines st;
     calls := calls st ++ [c] |}.

(** [ref.attr = x], as the change [f] of the object behind [ref]. *)
Definition assign (ref : string) (f : Property -> Property) (st : state) : state :=
  {| properties := dict_update ref f (properties st);
     derivedattributes := derivedattributes st;
     derivedunions := derivedunions st; redefines := redefines st;
     calls := calls st |}.

Definition deref (st : state) (ref : string) : result Property :=
  match dict_get ref (properties st) with
  | Some p => Ok p
  | None => Raise (DanglingReference ref)
  end.

Definition header : string :=
  "# This file is generated by build_uml.py. DO NOT EDIT!

from __future__ import annotations

from typing import List, Callable
from gaphor.UML.properties import (
    association,
    attribute,
    enumeration,
    derived,
    derivedunion,
    relation_one,
    relation_many,
    redefine,
)
from gaphor.UML.collection import collection

".

Section Generator.
(** [overrides.derives], the policy of the overrides file. *)
Variable derives : string -> bool.
(** Python's [int] on a [str]: [None] where it raises [ValueError]. *)
Variable int : string -> option Z.
(** [e.get("class_name")].  The element class of the parser is not part
    of this file, and the source alone does not tell whether its [get]
    sees the [class_name] attribute that the generator assigns or only
    the fields of the model file; every result below holds for both. *)
Variable get_class_name : Property -> option string.

(** *** [parse_association_end] *)

Definition no_name_message (head : Property) : string :=
  "ERROR! no name, but navigable: " +:+ p_id head +:+ " (" +:+
  str (p_class_name head) +:+ "." +:+ str (p_name head) +:+ ")".

(** [int(head.isDerived or 0)] *)
Definition int_isDerived (head : Property) : result Z :=
  if truthy (v_isDerived (p_values head)) then
    let s := default "" (v_isDerived (p_values head)) in
    match int s with
    | Some z => Ok z
    | None => Raise (ValueError ("invalid literal for int() with base 10: '" +:+ s +:+ "'"))
    end
  else Ok 0%Z.

(** [obj["name"]] for the class that an attribute of the end holds; an
    attribute that holds no class cannot be subscripted by a name. *)
Definition class_name_of (c : option Class) : result (option string) :=
  match c with
  | Some c => Ok (c_name c)
  | None => Raise (TypeError "object is not subscriptable by a name")
  end.

(** The [tail] argument of the source is not used by the function. *)
Definition parse_association_end (head : Property) : result Property :=
  let head := set_navigable (v_class_ (p_values head)) head in
  if negb (truthy (p_navigable head)) then Ok head
  else
    match p_name head with
    | None => Raise (ValueError (no_name_message head))
    | Some name =>
        let upper := or_else (v_upperValue (p_values head)) "*" in
        let lower := or_else (v_lowerValue (p_values head)) upper in
        let lower := if bool_decide (lower = "*") then BInt 0 else BStr lower in
        '(subsets, redefines) ← parse_association_tags (v_appliedStereotype (p_values head));
        class_name ← class_name_of (p_class_ head);
        opposite_class_name ← class_name_of (p_type head);
        let composite := bool_decide (v_aggregation (p_values head) = Some "composite") in
        derived ← int_isDerived head;
        Ok (set_redefines redefines
           (set_derived (Some derived)
           (set_composite (Some composite)
           (set_subsets (Some subsets)
           (set_upper (Some upper)
           (set_lower (Some lower)
           (set_opposite_class_name opposite_class_name
           (set_class_name class_name head))))))))
    end.

(** *** [get_association_ends] *)

(** One iteration of the loop over [a.memberEnd]; the state is the
    object store, [a.asAttribute] and the list [ends]. *)
Definition get_association_end (classes : dict string Class)
    (acc : dict string Property * option string * list string) (end_ : string)
  : result (dict string Property * option string * list string) :=
  let '(properties, asAttribute, ends) := acc in
  e ← getitem properties (Some end_);
  type ← getitem classes (v_type (p_values e));
  class_ ← (if truthy (v_class_ (p_values e))
            then c ← getitem classes (v_class_ (p_values e)); Ok (Some c)
            else Ok None);
  let simple := is_SimpleAttribute type in
  Ok (dict_update end_
        (fun e => set_is_simple_attribute (Some simple)
                    (set_class_ class_ (set_type (Some type) e))) properties,
      if simple then Some end_ else asAttribute,
      ends ++ [end_]).

Definition get_association_ends (a : Association)
    (properties : dict string Property) (classes : dict string Class)
  : result (dict string Property * option string * list string) :=
  for_each (get_association_end classes) (as_memberEnd a) (properties, None, []).
(** *** The passes of [generate] *)

(** [f"{e.class_name}.{e.name}"] *)
Definition qualified_name (e : Property) : string :=
  str (p_class_name e) +:+ "." +:+ str (p_name e).

(** [bool(e.derived)] *)
Definition derived_flag (e : Property) : bool :=
  match p_derived e with
  | Some z => bool_decide (z <> 0%Z)
  | None => false
  end.

(** [e1.derived or overrides.derives(f"{e1.get('class_name')}.{e1.get('name')}")] *)
Definition is_derived (e1 : Property) : bool :=
  derived_flag e1 || derives (str (get_class_name e1) +:+ "." +:+ str (p_name e1)).

(** [e.type.name] *)
Definition type_name (e : Property) : result (option string) :=
  match p_type e with
  | Some c => Ok (c_name c)
  | None => Raise (AttributeError "'str' object has no attribute 'name'")
  end.

Definition already_derived_message (e1 d : Property) : string :=
  str (p_class_name e1) +:+ "." +:+ str (p_name e1) +:+
  " is already in derived union set in class " +:+ str (p_class_name d).

Definition register_derivedunion (name : option string) (ref : string) (st : state)
  : state :=
  {| properties := properties st; derivedattributes := derivedattributes st;
     derivedunions := dict_set name ref (derivedunions st);
     redefines := redefines st; calls := calls st |}.

Definition register_derivedattribute (name : option string) (ref : string)
    (st : state) : state :=
  {| properties := properties st;
     derivedattributes := dict_set name ref (derivedattributes st);
     derivedunions := derivedunions st;
     redefines := redefines st; calls := calls st |}.

Definition append_redefine (ref : string) (st : state) : state :=
  {| properties := properties st; derivedattributes := derivedattributes st;
     derivedunions := derivedunions st;
     redefines := redefines st ++ [ref]; calls := calls st |}.

(** The body of the second loop over the two orientations [(e1, e2)] of
    an association, lines 314-338. *)
Definition resolve_end (asAttribute : option string) (st : state)
    (e1 e2 : string) : result state :=
  p1 ← deref st e1;
  if bool_decide (asAttribute <> None) then
    if bool_decide (asAttribute = Some e1) && truthy (p_navigable p1) then
      p2 ← deref st e2;
      name ← type_name p2;
      let st := emit (add_comment ("'" +:+ str name +:+ "." +:+ str (p_name p1)
                                   +:+ "' is a simple attribute")) st in
      let st := assign e1 (set_class_name name) st in
      let st := assign e1 (set_typeValue (Some "str")) st in
      p1 ← deref st e1;
      let st := emit (add_attribute p1 true) st in
      let st := assign e1 (set_written true) st in
      let st := assign e2 (set_written true) st in
      Ok st
    else Ok st
  else if truthy (p_redefines p1) then Ok (append_redefine e1 st)
  else if is_derived p1 then
    match dict_get (p_name p1) (derivedunions st) with
    | Some d =>
        d ← deref st d;
        Raise (AssertionError (already_derived_message p1 d))
    | None =>
        let st := register_derivedunion (p_name p1) e1 st in
        let st := assign e1 (set_union (Some [])) st in
        let st := assign e1 (set_written false) st in
        Ok st
    end
  else if truthy (p_navigable p1) then
    p2 ← deref st e2;
    Ok (emit (add_association p1 p2) st)
  else Ok st.

(** [ends[i]] *)
Definition tuple_index (ends : list string) (i : nat) : result string :=
  match ends !! i with
  | Some e => Ok e
  | None => Raise (IndexError "tuple index out of range")
  end.

Definition with_properties (properties : dict string Property) (st : state) : state :=
  {| properties := properties; derivedattributes := derivedattributes st;
     derivedunions := derivedunions st; redefines := redefines st;
     calls := calls st |}.

(** [parse_association_end(e1, e2)] on the object behind [e1]. *)
Definition parse_end (st : state) (e1 : string) : result state :=
  head ← deref st e1;
  head ← parse_association_end head;
  Ok (assign e1 (fun _ => head) st).

(** The body of the loop over the associations, lines 308-338. *)
Definition resolve_association (all_classes : dict string Class) (st : state)
    (a : Association) : result state :=
  '(properties, asAttribute, ends) ← get_association_ends a (properties st) all_classes;
  let st := with_properties properties st in
  e0 ← tuple_index ends 0;
  e1 ← tuple_index ends 1;
  st ← parse_end st e0;
  st ← parse_end st e1;
  st ← resolve_end asAttribute st e0 e1;
  resolve_end asAttribute st e1 e0.

(** The body of the loop over the owned attributes of a class [c],
    lines 295-302. *)
Definition resolve_attribute (c : Class) (st : state) (p : string) : result state :=
  match dict_get p (properties st) with
  | None => Raise (AttributeError "'NoneType' object has no attribute 'class_name'")
  | Some a =>
      let a := set_class_name (c_name c) a in
      let st := assign p (set_class_name (c_name c)) st in
      if negb (truthy (v_association (p_values a))) then
        if derives (qualified_name a)
        then Ok (register_derivedattribute (p_name a) p st)
        else Ok (emit (add_attribute a true) st)
      else Ok st
  end.

Definition resolve_attributes (st : state) (c : Class) : result state :=
  for_each (resolve_attribute c) (default [] (c_ownedAttribute c)) st.

(** The derived union pass, lines 341-347, for the subset name [s] of
    the property [a] stored under [ref].  A registered end has had its
    [union] list since its registration, so that [append] finds a list. *)
Definition link_subset (classes : dict string Class) (ref : string) (a : Property)
    (st : state) (s : string) : state :=
  if match v_type (p_values a) with
     | Some t => dict_in t classes
     | None => false
     end
  then
    match dict_get (Some s) (derivedunions st) with
    | Some d => assign d (fun d => set_union (Some (default [] (p_union d) ++ [ref])) d) st
    | None => emit (msg ("not a derived union: " +:+ str (p_class_name a) +:+ "." +:+ s)) st
    end
  else st.

(** The pass only ever changes [union] attributes, so the [subsets],
    ["type"] and [class_name] that it reads of a property are those the
    property has when the pass starts. *)
Definition link_subsets (classes : dict string Class) (st : state)
    (entry : string * Property) : state :=
  let '(ref, a) := entry in
  foldl (link_subset classes ref a) st (default [] (p_subsets a)).

Definition link_derivedunions (classes : dict string Class) (st : state) : state :=
  foldl (link_subsets classes) st (properties st).

(** The loops that hand the held-back results to the writer,
    lines 352-360. *)
Definition write_derivedattribute (st : state) (ref : string) : result state :=
  d ← deref st ref; Ok (emit (add_attribute d false) st).

Definition write_derivedunion (st : state) (ref : string) : result state :=
  d ← deref st ref; Ok (emit (add_derivedunion d) st).

Definition write_redefine (st : state) (ref : string) : result state :=
  r ← deref st ref;
  let st := emit (msg ("redefining " +:+ str (p_redefines r) +:+ " -> " +:+
                       qualified_name r)) st in
  Ok (emit (add_redefine r) st).

(** The body of the loop over the owned operations of a class [c],
    lines 365-367. *)
Definition write_operation (operations : dict string Operation) (c : Class)
    (st : state) (p : string) : result state :=
  match dict_get p operations with
  | None => Raise (AttributeError "'NoneType' object has no attribute 'class_name'")
  | Some o =>
      Ok (emit (add_operation {| o_id := o_id o; o_name := o_name o;
                                 o_class_name := c_name c |}) st)
  end.

Definition write_operations (operations : dict string Operation) (st : state)
    (c : Class) : result state :=
  for_each (write_operation operations c) (default [] (c_ownedOperation c)) st.

(** *** [generate], from the call of [filter_out_metaclasses] on

    The arguments are the buckets that the first part of [generate] fills
    from the parsed file, the classes being already enriched with their
    generalizations and stereotype names.  The enrichment passes that come
    before, with the comments that they hand to the writer ahead of the
    class definitions, are part of [generate_from_buckets] below. *)
Definition generate (classes : dict string Class)
    (associations : dict string Association)
    (properties : dict string Property)
    (operations : dict string Operation)
    (extensions : dict string Extension)
    (all_elements : dict string element)
    (outfile : option string) : result state :=
  classes ← filter_out_metaclasses classes extensions all_elements;
  let all_classes := classes in
  let classes := filter_out_simple_attributes classes in
  let st := {| properties := properties; derivedattributes := [];
               derivedunions := []; redefines := [];
               calls := add_classdef <$> dict_values classes |} in
  st ← for_each resolve_attributes (dict_values classes) st;
  st ← for_each (resolve_association all_classes) (dict_values associations) st;
  let st := link_derivedunions classes st in
  st ← for_each write_derivedattribute (dict_values (derivedattributes st)) st;
  st ← for_each write_derivedunion (dict_values (derivedunions st)) st;
  st ← for_each write_redefine (redefines st) st;
  st ← for_each (write_operations operations) (dict_values classes) st;
  Ok (emit (write outfile header) st).
End Generator.


(** * The enrichment passes and the run from the buckets on *)

(** ** [enrich_enumerations_with_values] *)

(** An enumeration is a class element whose name ends in [Kind] or
    [Sort]; [enumerates] is the attribute that the pass assigns. *)
Record Enumeration := {
  en_class : Class;
  en_enumerates : option (list string);
}.

(** The inner loop over [e["ownedAttribute"]]. *)
Fixpoint enumeration_values (properties : dict string Property)
    (ownedAttribute : list string) : result (list string) :=
  match ownedAttribute with
  | [] => Ok []
  | key :: rest =>
      p ← getitem properties (Some key);
      values ← enumeration_values properties rest;
      Ok (str (p_name p) :: values)
  end.

Definition enrich_enumeration (properties : dict string Property) (e : Enumeration)
  : result Enumeration :=
  match c_ownedAttribute (en_class e) with
  | None => Raise (TypeError "'NoneType' object is not iterable")
  | Some ownedAttribute =>
      values ← enumeration_values properties ownedAttribute;
      Ok {| en_class := en_class e; en_enumerates := Some values |}
  end.

Fixpoint enrich_enumerations_with_values (enumerations : dict string Enumeration)
    (properties : dict string Property) : result (dict string Enumeration) :=
  match enumerations with
  | [] => Ok []
  | (key, e) :: rest =>
      e ← enrich_enumeration properties e;
      rest ← enrich_enumerations_with_values rest properties;
      Ok ((key, e) :: rest)
  end.

(** ** [enrich_classes_with_generalizations] *)

(** A class object during the enrichment passes: the class, its
    ["appliedStereotype"] references, and the lists [generalization] and
    [specialization] of references to class objects. *)
Record ClassObject := {
  co_class : Class;
  co_appliedStereotype : option (list string);
  co_generalization : list string;
  co_specialization : list string;
}.

Record Generalization := {
  g_specific : option string;
  g_general : option string;
}.

Definition append_generalization (general : string) (c : ClassObject) : ClassObject :=
  {| co_class := co_class c; co_appliedStereotype := co_appliedStereotype c;
     co_generalization := co_generalization c ++ [general];
     co_specialization := co_specialization c |}.

Definition append_specialization (specific : string) (c : ClassObject) : ClassObject :=
  {| co_class := co_class c; co_appliedStereotype := co_appliedStereotype c;
     co_generalization := co_generalization c;
     co_specialization := co_specialization c ++ [specific] |}.

(** [classes[k]], as the reference to the object found. *)
Definition reference {V} (d : dict string V) (k : option string) : result string :=
  match k with
  | Some key => if dict_in key d then Ok key else Raise (KeyError k)
  | None => Raise (KeyError None)
  end.

(** The body of the loop for one generalization [g]. *)
Definition enrich_class_with_generalization (classes : dict string ClassObject)
    (g : Generalization) : result (dict string ClassObject) :=
  specific ← reference classes (g_specific g);
  general ← reference classes (g_general g);
  let classes := dict_update specific (append_generalization general) classes in
  Ok (dict_update general (append_specialization specific) classes).

Definition enrich_classes_with_generalizations (classes : dict string ClassObject)
    (generalizations : dict string Generalization) : result (dict string ClassObject) :=
  for_each enrich_class_with_generalization (dict_values generalizations) classes.

(** ** [enrich_classes_with_stereotypes] *)

(** An element of [all_elements]: what [filter_out_metaclasses] reads of
    it, and its [name], [classifier], [ownedAttribute] and
    [ownedOperation]. *)
Record ModelElement := {
  me_element : element;
  me_name : option string;
  me_classifier : option (list string);
  me_ownedAttribute : option (list string);
  me_ownedOperation : option (list string);
}.

Definition set_stereotypeName (stereotypeName : option string) (c : ClassObject)
  : ClassObject :=
  {| co_class :=
       {| c_id := c_id (co_class c); c_name := c_name (co_class c);
          c_stereotypeName := stereotypeName;
          c_ownedAttribute := c_ownedAttribute (co_class c);
          c_ownedOperation := c_ownedOperation (co_class c) |};
     co_appliedStereotype := co_appliedStereotype c;
     co_generalization := co_generalization c;
     co_specialization := co_specialization c |}.

(** The state of the pass: the class objects and the comments handed to
    the writer. *)
Definition tagging : Type := dict string ClassObject * list call.

Definition object (st : tagging) (ref : string) : result ClassObject :=
  match dict_get ref st.1 with
  | Some c => Ok c
  | None => Raise (DanglingReference ref)
  end.

(** [child.stereotypeName = sType.name] and the comment that follows. *)
Definition tag_child (name : option string) (st : tagging) (child : string)
  : result tagging :=
  c ← object st child;
  Ok (dict_update child (set_stereotypeName name) st.1,
      st.2 ++ [add_comment ("class '" +:+ str (c_name (co_class c)) +:+
                            "' has been stereotyped as '" +:+ str name +:+ "' too")]).

(** [tag_children(me)], where [name] is [sType.name] and [limit] the
    number of nested calls that the interpreter still allows. *)
Fixpoint tag_children (limit : nat) (name : option string) (st : tagging) (me : string)
  : result tagging :=
  match limit with
  | 0 => Raise RecursionError
  | S limit =>
      c ← object st me;
      for_each
        (fun st child => st ← tag_child name st child; tag_children limit name st child)
        (co_specialization c) st
  end.

(** [instSpec.classifier[0]] *)
Definition first_classifier (instSpec : ModelElement) : result string :=
  match me_classifier instSpec with
  | None => Raise (TypeError "'NoneType' object is not subscriptable")
  | Some [] => Raise (IndexError "list index out of range")
  | Some (classifier :: _) => Ok classifier
  end.

(** The body of the loop for the class object behind [ref]. *)
Definition enrich_class_with_stereotype (limit : nat)
    (all_elements : dict string ModelElement) (st : tagging) (ref : string)
  : result tagging :=
  c ← object st ref;
  match co_appliedStereotype c with
  | Some (applied :: _) =>
      instSpec ← getitem all_elements (Some applied);
      classifier ← first_classifier instSpec;
      sType ← getitem all_elements (Some classifier);
      let name := me_name sType in
      let st : tagging :=
        (dict_update ref (set_stereotypeName name) st.1,
         st.2 ++ [add_comment ("class '" +:+ str (c_name (co_class c)) +:+
                               "' has been stereotyped as '" +:+ str name +:+ "'")]) in
      tag_children limit name st ref
  | _ => Ok st
  end.

Definition enrich_classes_with_stereotypes (limit : nat)
    (classes : dict string ClassObject) (all_elements : dict string ModelElement)
  : result tagging :=
  for_each (enrich_class_with_stereotype limit all_elements)
    (dict_keys classes) (classes, []).

(** ** [generate], from the enrichment passes on *)

(** The class map that the passes after the enrichment work with. *)
Definition class_map (classes : dict string ClassObject) : dict string Class :=
  (fun kc => (kc.1, co_class kc.2)) <$> classes.

(** [all_elements] as [filter_out_metaclasses] reads it. *)
Definition element_map (all_elements : dict string ModelElement) : dict string element :=
  (fun kx => (kx.1, me_element kx.2)) <$> all_elements.

(** The object [all_elements[t]] as the value of a [type] attribute: the
    class object if [t] is a class, and otherwise the element read as a
    class that has no [stereotypeName]. *)
Definition typed_object (classes : dict string Class)
    (all_elements : dict string ModelElement) (t : string) : option Class :=
  match dict_get t classes with
  | Some c => Some c
  | None =>
      x ← dict_get t all_elements;
      Some {| c_id := el_id (me_element x); c_name := me_name x;
              c_stereotypeName := None;
              c_ownedAttribute := me_ownedAttribute x;
              c_ownedOperation := me_ownedOperation x |}
  end.

(** [end.type = all_elements[end["type"]]], line 158, for the member end
    [r] of an extension: the end is a property of the object store if it
    is a [Property]. *)
Definition type_extension_end (classes : dict string Class)
    (all_elements : dict string ModelElement) (properties : dict string Property)
    (r : string) : dict string Property :=
  match dict_get r all_elements with
  | Some end_ =>
      if truthy (el_type (me_element end_))
      then match el_type (me_element end_) ≫= typed_object classes all_elements with
           | Some type => dict_update r (set_type (Some type)) properties
           | None => properties
           end
      else properties
  | None => properties
  end.

(** The assignments of line 158 in a run of [filter_out_metaclasses] that
    returns. *)
Definition type_extension_ends (classes : dict string Class)
    (all_elements : dict string ModelElement) (extensions : dict string Extension)
    (properties : dict string Property) : dict string Property :=
  foldl (fun properties e =>
           foldl (type_extension_end classes all_elements) properties (x_memberEnd e))
        properties (dict_values extensions).

Section GeneratorFromBuckets.
Variable derives : string -> bool.
Variable int : string -> option Z.
Variable get_class_name : Property -> option string.

(** The passes that follow the loop over the associations,
    lines 341-369. *)
Definition after_associations (classes : dict string Class)
    (operations : dict string Operation) (outfile : option string) (st : state)
  : result state :=
  let st := link_derivedunions classes st in
  st ← for_each write_derivedattribute (dict_values (derivedattributes st)) st;
  st ← for_each write_derivedunion (dict_values (derivedunions st)) st;
  st ← for_each write_redefine (redefines st) st;
  st ← for_each (write_operations operations) (dict_values classes) st;
  Ok (emit (write outfile header) st).

(** Lines 280-369: the arguments are the buckets as the loop of
    lines 246-278 fills them, and [limit] is the depth of recursion that
    the interpreter allows.  The comments of the stereotype pass are the
    first calls that the writer receives. *)
Definition generate_from_buckets (limit : nat)
    (classes : dict string ClassObject)
    (enumerations : dict string Enumeration)
    (generalizations : dict string Generalization)
    (associations : dict string Association)
    (properties : dict string Property)
    (operations : dict string Operation)
    (extensions : dict string Extension)
    (all_elements : dict string ModelElement)
    (outfile : option string) : result state :=
  enumerations ← enrich_enumerations_with_values enumerations properties;
  classes ← enrich_classes_with_generalizations classes generalizations;
  '(classes, comments) ← enrich_classes_with_stereotypes limit classes all_elements;
  let enriched := class_map classes in
  classes ← filter_out_metaclasses enriched extensions (element_map all_elements);
  let properties := type_extension_ends enriched all_elements extensions properties in
  let all_classes := classes in
  let classes := filter_out_simple_attributes classes in
  let st := {| properties := properties; derivedattributes := [];
               derivedunions := []; redefines := [];
               calls := comments ++ (add_classdef <$> dict_values classes) |} in
  st ← for_each (resolve_attributes derives) (dict_values classes) st;
  st ← for_each (resolve_association derives int get_class_name all_classes)
         (dict_values associations) st;
  after_associations classes operations outfile st.
End GeneratorFromBuckets.
(** * Notions used to state the properties *)

(** The kinds of exceptions that a pass can raise. *)
Definition is_AttributeError (e : exn) : Prop := exists m, e = AttributeError m.
Definition is_KeyError (e : exn) : Prop := exists k, e = KeyError k.

(** The class that an extension makes [filter_out_metaclasses] delete: the
    type of the first of its member ends that have a type. *)
Definition metaclass_of (all_elements : dict string element) (e : Extension)
  : option string :=
  match extension_ends all_elements (x_memberEnd e) with
  | Ok ((_, ty) :: _) => Some (el_id ty)
  | _ => None
  end.

(** The types of all the member ends of an extension that have one. *)
Definition member_end_types (all_elements : dict string element) (e : Extension)
  : list string :=
  match extension_ends all_elements (x_memberEnd e) with
  | Ok ends => (fun x => el_id x.2) <$> ends
  | Raise _ => []
  end.

(** The classes that the extensions make [filter_out_metaclasses] delete. *)
Definition metaclasses (all_elements : dict string element)
    (extensions : list Extension) : list string :=
  omap (metaclass_of all_elements) extensions.

(** ** The outcomes of an association end *)

Inductive Classification :=
| NonNavigable
| SimpleAttribute
| Redefinition
| DerivedUnionMember
| PlainAssociation.

Section Classification.
Variable derives : string -> bool.
Variable get_class_name : Property -> option string.

(** The outcome of the end [e1] of an association with the given
    [asAttribute], the tests being made in the order of the generator. *)
Definition classification (asAttribute : option string) (e1 : Property)
  : Classification :=
  if bool_decide (asAttribute <> None) then SimpleAttribute
  else if truthy (p_redefines e1) then Redefinition
  else if is_derived derives get_class_name e1 then DerivedUnionMember
  else if truthy (p_navigable e1) then PlainAssociation
  else NonNavigable.

(** The outcome when the five tests are made in the order in which the
    outcomes are listed: navigability first. *)
Definition classification_navigability_first (asAttribute : option string)
    (e1 : Property) : Classification :=
  if negb (truthy (p_navigable e1)) then NonNavigable
  else if bool_decide (asAttribute <> None) then SimpleAttribute
  else if truthy (p_redefines e1) then Redefinition
  else if is_derived derives get_class_name e1 then DerivedUnionMember
  else PlainAssociation.
End Classification.

(** ** The simple attribute scenario

    An association [a] between a class named [Box] and a class stereotyped
    [SimpleAttribute]: its end [color] is named ["color"], owned by [Box]
    and typed by the stereotyped class; its other end [box] is typed [Box],
    and either has no owning class or is a well-formed named end. *)
Record simple_attribute_scenario (int : string -> option Z)
    (all_classes : dict string Class) (properties : dict string Property)
    (a : Association) (color box : string) : Prop := {
  scenario_ends : as_memberEnd a = [color; box] \/ as_memberEnd a = [box; color];
  scenario_distinct : color <> box;
  scenario_end_named_color :
    exists p tags derived,
      dict_get color properties = Some p /\ v_name (p_values p) = Some "color" /\
      parse_association_tags (v_appliedStereotype (p_values p)) = Ok tags /\
      int_isDerived int p = Ok derived;
  scenario_color_owned_by_Box :
    exists p id c,
      dict_get color properties = Some p /\ v_class_ (p_values p) = Some id /\
      id <> "" /\ dict_get id all_classes = Some c /\ c_name c = Some "Box";
  scenario_color_typed_simple :
    exists p id c,
      dict_get color properties = Some p /\ v_type (p_values p) = Some id /\
      dict_get id all_classes = Some c /\
      c_stereotypeName c = Some "SimpleAttribute";
  scenario_box_typed_Box :
    exists p id c,
      dict_get box properties = Some p /\ v_type (p_values p) = Some id /\
      dict_get id all_classes = Some c /\ c_name c = Some "Box" /\
      c_stereotypeName c <> Some "SimpleAttribute";
  scenario_box_well_formed :
    exists p,
      dict_get box properties = Some p /\
      (truthy (v_class_ (p_values p)) = false \/
       truthy (v_class_ (p_values p)) = true /\
       is_Some (v_name (p_values p)) /\
       (exists c, getitem all_classes (v_class_ (p_values p)) = Ok c) /\
       (exists tags,
           parse_association_tags (v_appliedStereotype (p_values p)) = Ok tags) /\
       (exists derived, int_isDerived int p = Ok derived));
}.

(** ** Resolving the ends of an association *)

(** The class that [classes[end["type"]]] finds for the member end [r]. *)
Definition type_class (properties : dict string Property) (classes : dict string Class)
    (r : string) : option Class :=
  p ← dict_get r properties; t ← v_type (p_values p); dict_get t classes.

(** The class that [classes[end["class_"]]] finds, when the end has a
    [class_] at all. *)
Definition owner_class (properties : dict string Property) (classes : dict string Class)
    (r : string) : option (option Class) :=
  p ← dict_get r properties;
  if truthy (v_class_ (p_values p))
  then k ← v_class_ (p_values p); c ← dict_get k classes; Some (Some c)
  else Some None.

(** The member end [r] can be resolved against [classes]. *)
Definition resolvable (properties : dict string Property) (classes : dict string Class)
    (r : string) : Prop :=
  is_Some (type_class properties classes r) /\ is_Some (owner_class properties classes r).

(** The type of the member end [r] carries the [SimpleAttribute]
    stereotype. *)
Definition typed_simple (properties : dict string Property) (classes : dict string Class)
    (r : string) : bool :=
  match type_class properties classes r with
  | Some c => is_SimpleAttribute c
  | None => false
  end.

(** The state in which [generate] starts its loops, lines 288-305: the
    class definitions have been handed to the writer. *)
Definition first_state (classes : dict string Class) (properties : dict string Property)
  : state :=
  {| properties := properties; derivedattributes := []; derivedunions := [];
     redefines := []; calls := add_classdef <$> dict_values classes |}.

(** ** Notions for the derived union pass and the order of the calls *)

(** [a["type"] in classes] *)
Definition type_retained (classes : dict string Class) (a : Property) : bool :=
  match v_type (p_values a) with
  | Some t => dict_in t classes
  | None => false
  end.

Definition not_a_derived_union (a : Property) (s : string) : call :=
  msg ("not a derived union: " +:+ str (p_class_name a) +:+ "." +:+ s).



(** The kinds of calls that the passes of [generate] make. *)
Definition is_add_classdef (c : call) : Prop :=
  match c with add_classdef _ => True | _ => False end.

(** [writer.add_attribute(a, enumerations)] *)
Definition is_add_attribute (c : call) : Prop :=
  match c with add_attribute _ true => True | _ => False end.

(** [writer.add_attribute(d)], the call for a derived attribute *)
Definition is_add_derived_attribute (c : call) : Prop :=
  match c with add_attribute _ false => True | _ => False end.

Definition is_add_derivedunion (c : call) : Prop :=
  match c with add_derivedunion _ => True | _ => False end.

Definition is_add_operation (c : call) : Prop :=
  match c with add_operation _ => True | _ => False end.

(** The comments of [enrich_classes_with_stereotypes]: for the class that
    has the stereotype applied, and for a class below it. *)
Definition is_stereotype_comment (c : call) : Prop :=
  exists name stereotype,
    c = add_comment ("class '" +:+ name +:+ "' has been stereotyped as '" +:+
                     stereotype +:+ "'")
    \/ c = add_comment ("class '" +:+ name +:+ "' has been stereotyped as '" +:+
                        stereotype +:+ "' too").

(** The calls of the loop over the associations for one end: the comment
    of a simple attribute followed at once by its attribute call, or one
    association call. *)
Inductive association_group : list call -> Prop :=
| simple_attribute_group a :
    p_typeValue a = Some "str" ->
    association_group
      [add_comment ("'" +:+ str (p_class_name a) +:+ "." +:+ str (p_name a) +:+
                    "' is a simple attribute");
       add_attribute a true]
| plain_association_group e1 e2 :
    association_group [add_association e1 e2].

(** The diagnostics of the derived union pass. *)
Definition is_diagnostic (c : call) : Prop := exists a s, c = not_a_derived_union a s.

(** The calls of the loop over the redefinitions for one end: the notice
    followed at once by the redefine call. *)
Inductive redefine_group : list call -> Prop :=
| redefine_group_of r :
    redefine_group
      [msg ("redefining " +:+ str (p_redefines r) +:+ " -> " +:+ qualified_name r);
       add_redefine r].

(** [l] is made of groups of calls, each a [G], one after the other. *)
Definition grouped (G : list call -> Prop) (l : list call) : Prop :=
  exists groups, l = concat groups /\ Forall G groups.

(** [st'] has the calls of [st] followed by groups of calls, each a [G]. *)
Definition appends_groups (G : list call -> Prop) (st st' : state) : Prop :=
  exists new, calls st' = calls st ++ new /\ grouped G new.

(** [st'] has the calls of [st] followed by calls of kind [P] only. *)
Definition appends (P : call -> Prop) (st st' : state) : Prop :=
  exists new, calls st' = calls st ++ new /\ Forall P new.

(** The rank of a call in the order of groups: class definitions,
    attributes, associations, redefinitions, derived unions, operations,
    write.  Comments and messages belong to no group. *)
Definition group (c : call) : option nat :=
  match c with
  | add_classdef _ => Some 1
  | add_attribute _ _ => Some 2
  | add_association _ _ => Some 3
  | add_redefine _ => Some 4
  | add_derivedunion _ => Some 5
  | add_operation _ => Some 6
  | write _ _ => Some 7
  | add_comment _ | msg _ => None
  end.

(** ** Object references

    The registries of a state refer to objects of the store, whose keys
    [K] never change. *)
Definition well_formed (K : list string) (st : state) : Prop :=
  dict_keys (properties st) = K /\
  Forall (fun ref => ref ∈ K)
  (dict_values (derivedattributes st) ++ dict_values (derivedunions st) ++ redefines st).

Definition not_dangling (e : exn) : Prop :=
  match e with DanglingReference _ => False | _ => True end.

(** A computation that keeps the invariant [I] when it returns and does
    not fail on an object reference when it raises. *)
Definition safe {A} (I : A -> Prop) (m : result A) : Prop :=
  match m with
  | Ok a => I a
  | Raise e => not_dangling e
  end.

(** ** Example models *)

Module Examples.
Definition class (id name : string) (stereotypeName : option string)
    (ownedAttribute : option (list string)) : Class :=
  {| c_id := id; c_name := Some name; c_stereotypeName := stereotypeName;
     c_ownedAttribute := ownedAttribute; c_ownedOperation := None |}.

Definition elem (id tag : string) (type : option string) : element :=
  {| el_id := id; el_tag := tag; el_type := type |}.

(** An extension both of whose member ends have a type that is a class
    of the class map. *)
Definition two_typed_ends_elements : dict string element :=
  [("end1", elem "end1" "Property" (Some "T1"));
   ("end2", elem "end2" "Property" (Some "T2"));
   ("T1", elem "T1" "Class" None);
   ("T2", elem "T2" "Class" None)].
Definition two_typed_ends_classes : dict string Class :=
  [("T1", class "T1" "Package" None None); ("T2", class "T2" "Marker" None None)].
Definition two_typed_ends_extensions : dict string Extension :=
  [("x1", {| x_id := "x1"; x_memberEnd := ["end1"; "end2"] |})].

(** Two extensions of the same metaclass. *)
Definition same_metaclass_extensions : dict string Extension :=
  [("x1", {| x_id := "x1"; x_memberEnd := ["end1"] |});
   ("x2", {| x_id := "x2"; x_memberEnd := ["end1"] |})].

(** A conversion for the examples: [int] on strings of decimal digits. *)
Definition decimal_digit (a : ascii) : option Z :=
  let n := nat_of_ascii a in
  if bool_decide (48 <= n <= 57)%nat then Some (Z.of_nat (n - 48)) else None.

Fixpoint decimal_from (acc : Z) (s : string) : option Z :=
  match s with
  | "" => Some acc
  | String a rest => d ← decimal_digit a; decimal_from (10 * acc + d) rest
  end.

Definition decimal (s : string) : option Z :=
  match s with
  | "" => None
  | _ => decimal_from 0 s
  end.

Definition values (id : string) (name type class_ : option string) : PropertyValues :=
  {| v_id := id; v_name := name; v_type := type; v_class_ := class_;
   v_lowerValue := None; v_upperValue := None; v_isDerived := None;
   v_aggregation := None; v_appliedStereotype := None; v_association := Some "a1" |}.

Definition with_bounds (lowerValue upperValue : option string) (v : PropertyValues)
  : PropertyValues :=
  {| v_id := v_id v; v_name := v_name v; v_type := v_type v; v_class_ := v_class_ v;
   v_lowerValue := lowerValue; v_upperValue := upperValue;
   v_isDerived := v_isDerived v; v_aggregation := v_aggregation v;
   v_appliedStereotype := v_appliedStereotype v; v_association := v_association v |}.

Definition Node : Class := class "c1" "Node" None (Some ["p1"]).

(** The end [children] of [Node], typed [Node], as [get_association_ends]
    leaves it, with the multiplicity given by [lowerValue], [upperValue]. *)
Definition children (lowerValue upperValue : option string) : Property :=
  set_class_ (Some Node) (set_type (Some Node)
  (new_property (with_bounds lowerValue upperValue
                   (values "p1" (Some "children") (Some "c1") (Some "c1"))))).

(** The class [Box] and the class [Color] stereotyped [SimpleAttribute],
    with an association between them whose end [color] is owned by [Box]
    and typed [Color]; the opposite end has no owner and no name. *)
Definition Box : Class := class "c1" "Box" None (Some ["p1"]).
Definition Color : Class := class "c2" "Color" (Some "SimpleAttribute") None.
Definition box_classes : dict string Class := [("c1", Box); ("c2", Color)].
Definition box_properties : dict string Property :=
  [("p1", new_property (values "p1" (Some "color") (Some "c2") (Some "c1")));
 ("p2", new_property (values "p2" None (Some "c1") None))].
Definition box_association : Association :=
  {| as_id := "a1"; as_memberEnd := ["p1"; "p2"] |}.

(** The class [Node] with an association to itself: the end [children] is
    owned by [Node], the opposite end [owner] has no owning class.  The
    overrides declare [None.owner] derived. *)
Definition node_classes : dict string Class := [("c1", Node)].
Definition node_properties : dict string Property :=
  [("p1", new_property (values "p1" (Some "children") (Some "c1") (Some "c1")));
 ("p2", new_property (values "p2" (Some "owner") (Some "c1") None))].
Definition node_associations : dict string Association :=
  [("a1", {| as_id := "a1"; as_memberEnd := ["p1"; "p2"] |})].
Definition owner_derives (key : string) : bool := bool_decide (key = "None.owner").
Definition nothing_derives (key : string) : bool := false.

Definition initial_state (properties : dict string Property) : state :=
  {| properties := properties; derivedattributes := []; derivedunions := [];
   redefines := []; calls := [] |}.

(** The two ends of [Node] once [get_association_ends] and
    [parse_association_end] have been applied to them. *)
Definition parsed (p : Property) : Property :=
  match parse_association_end decimal p with
  | Ok p' => p'
  | Raise _ => p
  end.
Definition children_parsed : Property :=
  parsed (set_is_simple_attribute (Some false) (children None None)).
Definition owner_parsed : Property :=
  parsed (set_is_simple_attribute (Some false) (set_class_ None
  (set_type (Some Node) (new_property (values "p2" (Some "owner") (Some "c1") None))))).
Definition node_state : state :=
  initial_state [("p1", children_parsed); ("p2", owner_parsed)].

(** Two classes [A] and [B], each with a derived end named [member]. *)
Definition with_isDerived (isDerived : option string) (v : PropertyValues)
  : PropertyValues :=
  {| v_id := v_id v; v_name := v_name v; v_type := v_type v; v_class_ := v_class_ v;
   v_lowerValue := v_lowerValue v; v_upperValue := v_upperValue v;
   v_isDerived := isDerived; v_aggregation := v_aggregation v;
   v_appliedStereotype := v_appliedStereotype v; v_association := v_association v |}.
Definition member_classes : dict string Class :=
  [("c1", class "c1" "A" None (Some ["p1"])); ("c2", class "c2" "B" None (Some ["p3"]))].
Definition member_properties : dict string Property :=
  [("p1", new_property (with_isDerived (Some "1")
                        (values "p1" (Some "member") (Some "c2") (Some "c1"))));
 ("p2", new_property (values "p2" None (Some "c1") None));
 ("p3", new_property (with_isDerived (Some "1")
                        (values "p3" (Some "member") (Some "c1") (Some "c2"))));
 ("p4", new_property (values "p4" None (Some "c2") None))].
Definition member_associations : dict string Association :=
  [("a1", {| as_id := "a1"; as_memberEnd := ["p1"; "p2"] |});
 ("a2", {| as_id := "a2"; as_memberEnd := ["p3"; "p4"] |})].

(** The state of the run on this model in which the loop body for the
    second association reaches the end [member] of [B]: the first
    association has been resolved, so that [member] of [A] is registered,
    and the ends of the second have been resolved and parsed. *)
Definition member_state : state :=
  match
    st ← resolve_association nothing_derives decimal p_class_name member_classes
           (initial_state member_properties)
           {| as_id := "a1"; as_memberEnd := ["p1"; "p2"] |};
    '(properties, _, _) ← get_association_ends {| as_id := "a2"; as_memberEnd := ["p3"; "p4"] |}
                            (properties st) member_classes;
    st ← parse_end decimal (with_properties properties st) "p3";
    parse_end decimal st "p4"
  with
  | Ok st => st
  | Raise _ => initial_state []
  end.

(** The [Box] and [Color] model where the end [color] carries the tag
    [subsets = nonexistentUnion], and the [Node] model where the end
    [children] carries it. *)
Definition tagged (feature value : string) (v : PropertyValues) : PropertyValues :=
  {| v_id := v_id v; v_name := v_name v; v_type := v_type v; v_class_ := v_class_ v;
   v_lowerValue := v_lowerValue v; v_upperValue := v_upperValue v;
   v_isDerived := v_isDerived v; v_aggregation := v_aggregation v;
   v_appliedStereotype :=
     Some [{| st_slot := Some [{| slot_definingFeature := Some {| f_name := Some feature |};
                                  slot_value := Some value |}] |}];
   v_association := v_association v |}.
Definition node_properties_subsets : dict string Property :=
  [("p1", new_property (tagged "subsets" "nonexistentUnion"
                        (values "p1" (Some "children") (Some "c1") (Some "c1"))));
 ("p2", new_property (values "p2" None (Some "c1") None))].

(** A model whose three associations yield a plain association between
    [Shape] and [Canvas], the simple attribute [Shape.color], the derived
    union [Shape.part] and the redefinition [Circle.center]; the overrides
    declare the attribute [Shape.area] derived. *)
Definition shape_derives (key : string) : bool := bool_decide (key = "Shape.area").
Definition shape_classes : dict string Class :=
  [("c1", class "c1" "Shape" None (Some ["p0"; "p1"; "p3"; "p5"]));
 ("c2", class "c2" "Canvas" None None);
 ("c3", class "c3" "Color" (Some "SimpleAttribute") None);
 ("c4", class "c4" "Circle" None (Some ["p7"]))].
Definition attribute_values (id name : string) : PropertyValues :=
  {| v_id := id; v_name := Some name; v_type := None; v_class_ := Some "c1";
   v_lowerValue := None; v_upperValue := None; v_isDerived := None;
   v_aggregation := None; v_appliedStereotype := None; v_association := None |}.
Definition shape_properties : dict string Property :=
  [("p0", new_property (attribute_values "p0" "area"));
 ("p1", new_property (values "p1" (Some "canvas") (Some "c2") (Some "c1")));
 ("p2", new_property (values "p2" None (Some "c1") None));
 ("p3", new_property (values "p3" (Some "color") (Some "c3") (Some "c1")));
 ("p4", new_property (values "p4" None (Some "c1") None));
 ("p5", new_property (with_isDerived (Some "1")
                        (values "p5" (Some "part") (Some "c2") (Some "c1"))));
 ("p6", new_property (values "p6" None (Some "c1") None));
 ("p7", new_property (tagged "redefines" "shape"
                        (values "p7" (Some "center") (Some "c2") (Some "c4"))));
 ("p8", new_property (values "p8" None (Some "c4") None))].
Definition shape_associations : dict string Association :=
  [("a1", {| as_id := "a1"; as_memberEnd := ["p1"; "p2"] |});
 ("a2", {| as_id := "a2"; as_memberEnd := ["p3"; "p4"] |});
 ("a3", {| as_id := "a3"; as_memberEnd := ["p5"; "p6"] |});
 ("a4", {| as_id := "a4"; as_memberEnd := ["p7"; "p8"] |})].

(** The buckets of the [Shape] model before the enrichment passes:
    [Circle] specializes [Shape], the stereotype [Figure] is applied to
    [Shape] and the stereotype [SimpleAttribute] to [Color]. *)
Definition class_object (c : Class) (appliedStereotype : option (list string))
  : ClassObject :=
  {| co_class := c; co_appliedStereotype := appliedStereotype;
     co_generalization := []; co_specialization := [] |}.
Definition shape_objects : dict string ClassObject :=
  [("c1", class_object (class "c1" "Shape" None (Some ["p0"; "p1"; "p3"; "p5"]))
            (Some ["i1"]));
   ("c2", class_object (class "c2" "Canvas" None None) None);
   ("c3", class_object (class "c3" "Color" None None) (Some ["i2"]));
   ("c4", class_object (class "c4" "Circle" None (Some ["p7"])) None)].
Definition shape_generalizations : dict string Generalization :=
  [("g1", {| g_specific := Some "c4"; g_general := Some "c1" |})].
Definition model_element (id tag : string) (name : option string)
    (classifier : option (list string)) : ModelElement :=
  {| me_element := elem id tag None; me_name := name; me_classifier := classifier;
     me_ownedAttribute := None; me_ownedOperation := None |}.
Definition shape_elements : dict string ModelElement :=
  [("i1", model_element "i1" "InstanceSpecification" None (Some ["s1"]));
   ("i2", model_element "i2" "InstanceSpecification" None (Some ["s2"]));
   ("s1", model_element "s1" "Stereotype" (Some "Figure") None);
   ("s2", model_element "s2" "Stereotype" (Some "SimpleAttribute") None)].
End Examples.

(** * Properties of the generator *)

(** ** Dictionaries *)

Section DictFacts.
Context {K V : Type} `{EqDecision K}.
Implicit Types (k : K) (v : V) (d : dict K V).

Lemma dict_get_Some_elem k v d : dict_get k d = Some v -> (k, v) ∈ d.
Proof.
  induction d as [|[k' v'] d IH]; simpl; [done|].
  case_decide; [intros [= ->]; subst; left | right; auto].
Qed.

Lemma dict_get_None k d : dict_get k d = None <-> k ∉ dict_keys d.
Proof.
  unfold dict_keys. induction d as [|[k' v'] d IH]; simpl.
  - split; [intros _; apply not_elem_of_nil | done].
  - rewrite not_elem_of_cons. case_decide; subst.
    + split; [done | intros [? _]; done].
    + rewrite IH. split; [intros ?; split; [congruence | done] | intros [_ ?]; done].
Qed.

Lemma dict_in_keys k d : dict_in k d = true <-> k ∈ dict_keys d.
Proof.
  unfold dict_in. rewrite bool_decide_eq_true.
  destruct (dict_get k d) eqn:E.
  - split; [intros _ | eauto].
    apply dict_get_Some_elem in E. unfold dict_keys.
    apply list_elem_of_fmap. exists (k, v). done.
  - split; [intros [? ?]; done |].
    apply dict_get_None in E. done.
Qed.

Lemma dict_remove_keys k k' d :
  k' ∈ dict_keys (dict_remove k d) <-> k' ∈ dict_keys d /\ k' <> k.
Proof.
  unfold dict_keys, dict_remove. rewrite !list_elem_of_fmap. split.
  - intros [[a b] [-> H]]. apply list_elem_of_filter in H as [H1 H2].
    simpl in *. split; [exists (a, b); done | done].
  - intros [[[a b] [-> H]] Hne]. exists (a, b). split; [done|].
    apply list_elem_of_filter. done.
Qed.

Lemma dict_get_update k f d k' :
  dict_get k' (dict_update k f d)
  = if decide (k' = k) then f <$> dict_get k' d else dict_get k' d.
Proof.
  unfold dict_update. induction d as [|[k1 v1] d IH].
  - simpl. by case_decide.
  - rewrite fmap_cons. cbn [fst snd].
    destruct (decide (k1 = k)) as [->|Hk]; cbn [dict_get];
      destruct (decide (k = k')) as [->|Hk']; repeat case_decide;
      try congruence; try done; rewrite IH; repeat case_decide; congruence.
Qed.

Lemma dict_keys_update k f d : dict_keys (dict_update k f d) = dict_keys d.
Proof.
  unfold dict_keys, dict_update. rewrite <- list_fmap_compose.
  apply list_fmap_ext. intros i [k1 v1] _. simpl. by case_decide.
Qed.

Lemma dict_set_absent k v d : dict_get k d = None -> dict_set k v d = d ++ [(k, v)].
Proof.
  induction d as [|[k1 v1] d IH]; simpl; [done|].
  case_decide; [done|]. intros E. by rewrite IH.
Qed.

Lemma dict_values_set k v d x :
  x ∈ dict_values (dict_set k v d) -> x = v \/ x ∈ dict_values d.
Proof.
  unfold dict_values. induction d as [|[k1 v1] d IH]; simpl.
  - intros Hx. apply list_elem_of_singleton in Hx. by left.
  - case_decide; simpl; rewrite !elem_of_cons; [tauto|].
    intros [->|Hx]; [tauto|]. apply IH in Hx. tauto.
Qed.

Lemma dict_get_Some_key k v d : dict_get k d = Some v -> k ∈ dict_keys d.
Proof.
  intros H. apply dict_in_keys. unfold dict_in. rewrite H.
  by apply bool_decide_eq_true_2.
Qed.

Lemma dict_get_key k d : k ∈ dict_keys d -> exists v, dict_get k d = Some v.
Proof.
  intros H. destruct (dict_get k d) eqn:E; [eauto|].
  by apply dict_get_None in E.
Qed.
End DictFacts.

(** ** The error monad and loops *)

Lemma for_each_app {A S} (body : S -> A -> result S) xs ys s :
  for_each body (xs ++ ys) s = (s' ← for_each body xs s; for_each body ys s').
Proof.
  revert s. induction xs as [|x xs IH]; intros s; simpl; [done|].
  destruct (body s x); simpl; [apply IH | done].
Qed.

Lemma bind_Ok {A B} (m : result A) (f : A -> result B) b :
  (m ≫= f) = Ok b -> exists a, m = Ok a /\ f a = Ok b.
Proof. destruct m; simpl; [eauto | done]. Qed.

Ltac inv_bind H :=
  let a := fresh "x" in
  let E := fresh "E" in
  apply bind_Ok in H as (a & E & H).

(** ** [filter_out_metaclasses] *)

Section FilterOutMetaclasses.
Variable all_elements : dict string element.
Implicit Types (classes : dict string Class) (e : Extension).

Lemma delitem_Ok {V} (d d' : dict string V) k :
  delitem d k = Ok d' -> k ∈ dict_keys d /\ d' = dict_remove k d.
Proof.
  unfold delitem. destruct (dict_in k d) eqn:E; [|done].
  intros [= <-]. by apply dict_in_keys in E.
Qed.

Lemma delitem_absent {V} (d : dict string V) k :
  k ∉ dict_keys d -> delitem d k = Raise (KeyError (Some k)).
Proof.
  intros H. unfold delitem. destruct (dict_in k d) eqn:E; [|done].
  by apply dict_in_keys in E.
Qed.

Lemma filter_out_metaclass_Ok classes e classes' :
  filter_out_metaclass all_elements classes e = Ok classes' ->
  match metaclass_of all_elements e with
  | Some t => t ∈ dict_keys classes /\ classes' = dict_remove t classes
  | None => classes' = classes
  end.
Proof.
  unfold filter_out_metaclass, metaclass_of.
  destruct (extension_ends all_elements (x_memberEnd e)) as [[|[? ty] ends]|]; simpl.
  - by intros [= <-].
  - apply delitem_Ok.
  - done.
Qed.

Lemma filter_out_metaclass_unchanged classes e current :
  (exists cs, filter_out_metaclass all_elements classes e = Ok cs) ->
  metaclass_of all_elements e = None ->
  filter_out_metaclass all_elements current e = Ok current.
Proof.
  unfold filter_out_metaclass, metaclass_of. intros [cs H].
  destruct (extension_ends all_elements (x_memberEnd e)) as [[|[? ty] ends]|];
    simpl in *; done.
Qed.

Lemma for_each_filter_out_metaclass extensions classes classes' :
  for_each (filter_out_metaclass all_elements) extensions classes = Ok classes' ->
  classes' = filter (fun kc => kc.1 ∉ metaclasses all_elements extensions) classes.
Proof.
  revert classes. induction extensions as [|e extensions IH]; intros classes; simpl.
  - intros [= <-]. symmetry. induction classes as [|kc classes IHc]; [done|].
    rewrite filter_cons_True by apply not_elem_of_nil. by rewrite IHc.
  - intros H. inv_bind H. rewrite (IH _ H).
    pose proof (filter_out_metaclass_Ok _ _ _ E) as Hstep.
    unfold metaclasses. simpl. unfold metaclasses in IH.
    destruct (metaclass_of all_elements e) as [t|].
    + destruct Hstep as [_ ->]. unfold dict_remove.
      rewrite list_filter_filter. apply list_filter_iff.
      intros [k c]. simpl. rewrite not_elem_of_cons. tauto.
    + by subst.
Qed.
End FilterOutMetaclasses.

(** C2, as stated, fails: an extension two of whose member ends have a type
    in the class map loses only the type of the first; the type ["T2"] of
    its second end is still a class afterwards. *)
Lemma filter_out_metaclasses_keeps_later_end_type :
  "T2" ∈ member_end_types Examples.two_typed_ends_elements
           {| x_id := "x1"; x_memberEnd := ["end1"; "end2"] |} /\
  exists classes',
    filter_out_metaclasses Examples.two_typed_ends_classes
      Examples.two_typed_ends_extensions Examples.two_typed_ends_elements = Ok classes' /\
    "T2" ∈ dict_keys classes'.
Proof.
  split.
  - vm_compute. apply list_elem_of_further, list_elem_of_here.
  - eexists. split; [vm_compute; reflexivity|]. vm_compute. apply list_elem_of_here.
Qed.

(** C2, amended: when [filter_out_metaclasses] returns, the class map has
    lost exactly the classes that are the type of the first typed member
    end of some extension, all of which were classes of the map; the order
    of the remaining classes is kept; and an extension without typed member
    end leaves any class map unchanged. *)
Theorem filter_out_metaclasses_removes_first_end_types
    (classes classes' : dict string Class) (extensions : dict string Extension)
    (all_elements : dict string element) :
  filter_out_metaclasses classes extensions all_elements = Ok classes' ->
  classes' = filter (fun kc => kc.1 ∉ metaclasses all_elements (dict_values extensions))
               classes
  /\ (forall t, t ∈ metaclasses all_elements (dict_values extensions) ->
        t ∈ dict_keys classes)
  /\ (forall e current, e ∈ dict_values extensions ->
        metaclass_of all_elements e = None ->
        filter_out_metaclass all_elements current e = Ok current).
Proof.
  unfold filter_out_metaclasses. intros H.
  split; [by apply for_each_filter_out_metaclass|].
  revert classes H. generalize (dict_values extensions). clear extensions.
  intros extensions. induction extensions as [|e extensions IH]; intros classes; simpl.
  - intros _. split.
    + intros t Ht. by apply elem_of_nil in Ht.
    + intros e current He. by apply elem_of_nil in He.
  - intros H. inv_bind H. destruct (IH _ H) as [IHkeys IHnone].
    pose proof (filter_out_metaclass_Ok _ _ _ _ E) as Hstep.
    unfold metaclasses in *. simpl. split.
    + intros t Ht. destruct (metaclass_of all_elements e) as [t'|].
      * destruct Hstep as [Hin ->]. apply elem_of_cons in Ht as [->|Ht]; [done|].
        apply IHkeys in Ht. by apply dict_remove_keys in Ht as [? _].
      * subst. by apply IHkeys.
    + intros e' current He' Hnone. apply elem_of_cons in He' as [->|He'].
      * eapply filter_out_metaclass_unchanged; eauto.
      * by apply IHnone.
Qed.

Lemma filter_out_metaclasses_removes_first_end_types_witness :
  [("T2", Examples.class "T2" "Marker" None None)]
  = filter (fun kc => kc.1 ∉ metaclasses Examples.two_typed_ends_elements
                             (dict_values Examples.two_typed_ends_extensions))
      Examples.two_typed_ends_classes.
Proof.
  apply (filter_out_metaclasses_removes_first_end_types
           Examples.two_typed_ends_classes _ Examples.two_typed_ends_extensions
           Examples.two_typed_ends_elements).
  vm_compute. reflexivity.
Defined.

(** C10: an extension whose first typed member end has a type that is not
    a key of the class map as the earlier extensions left it makes
    [filter_out_metaclasses] raise [KeyError] for that key. *)
Theorem filter_out_metaclasses_KeyError
    (classes current : dict string Class) (extensions : dict string Extension)
    (all_elements : dict string element) (earlier later : list Extension)
    (e : Extension) (t : string) :
  dict_values extensions = earlier ++ e :: later ->
  for_each (filter_out_metaclass all_elements) earlier classes = Ok current ->
  metaclass_of all_elements e = Some t ->
  t ∉ dict_keys current ->
  filter_out_metaclasses classes extensions all_elements = Raise (KeyError (Some t)).
Proof.
  intros Hsplit Hearlier Ht Hnin. unfold filter_out_metaclasses.
  rewrite Hsplit, for_each_app, Hearlier. simpl.
  assert (filter_out_metaclass all_elements current e = Raise (KeyError (Some t))) as ->; [|done].
  unfold filter_out_metaclass, metaclass_of in *.
  destruct (extension_ends all_elements (x_memberEnd e)) as [[|[? ty] ends]|];
    simpl in *; try done.
  injection Ht as <-. by apply delitem_absent.
Qed.

Lemma filter_out_metaclasses_KeyError_witness :
  filter_out_metaclasses Examples.two_typed_ends_classes
    Examples.same_metaclass_extensions Examples.two_typed_ends_elements
  = Raise (KeyError (Some "T1")).
Proof.
  apply (filter_out_metaclasses_KeyError _ [("T2", Examples.class "T2" "Marker" None None)]
           _ _ [{| x_id := "x1"; x_memberEnd := ["end1"] |}] []
           {| x_id := "x2"; x_memberEnd := ["end1"] |}).
  - reflexivity.
  - vm_compute. reflexivity.
  - vm_compute. reflexivity.
  - vm_compute. intros H. apply list_elem_of_singleton in H. discriminate.
Defined.


(** ** [parse_association_end] *)

Lemma for_each_raises {A S} (P : exn -> Prop) (body : S -> A -> result S) xs s e :
  (forall s x e, body s x = Raise e -> P e) ->
  for_each body xs s = Raise e -> P e.
Proof.
  intros Hbody. revert s. induction xs as [|x xs IH]; intros s; simpl; [done|].
  destruct (body s x) eqn:E; simpl; [apply IH|].
  intros [= <-]. eauto.
Qed.

Lemma parse_slot_raises tags slot e :
  parse_slot tags slot = Raise e -> is_AttributeError e.
Proof.
  destruct tags as [subsets redefines]. unfold parse_slot, defining_feature_name, stripped_value.
  destruct (slot_definingFeature slot) as [f|]; simpl; [|intros [= <-]; eexists; done].
  destruct (slot_value slot) as [value|]; simpl;
    repeat case_bool_decide; simpl; intros [= <-]; eexists; done.
Qed.

Lemma parse_association_tags_raises appliedStereotypes e :
  parse_association_tags appliedStereotypes = Raise e -> is_AttributeError e.
Proof.
  unfold parse_association_tags. apply for_each_raises.
  intros tags stereotype e'. apply for_each_raises. apply parse_slot_raises.
Qed.

Section ParseAssociationEnd.
Variable int : string -> option Z.
Implicit Types head : Property.

(** C6: [parse_association_end] raises its "no name, but navigable" error
    exactly when [class_] is present and [name] is absent; an end without
    [class_] is returned with [navigable] as the only attribute assigned;
    and a named end with [class_] whose tags, classes and derivation flag
    are well formed is returned without error. *)
Theorem parse_association_end_no_name head :
  (parse_association_end int head = Raise (ValueError (no_name_message head))
   <-> truthy (v_class_ (p_values head)) = true /\ p_name head = None)
  /\ (truthy (v_class_ (p_values head)) = false ->
      parse_association_end int head = Ok (set_navigable (v_class_ (p_values head)) head))
  /\ (truthy (v_class_ (p_values head)) = true -> is_Some (p_name head) ->
      is_Some (p_class_ head) -> is_Some (p_type head) ->
      (exists tags, parse_association_tags (v_appliedStereotype (p_values head)) = Ok tags) ->
      (exists derived, int_isDerived int head = Ok derived) ->
      exists head', parse_association_end int head = Ok head').
Proof.
  unfold parse_association_end. cbn [p_navigable set_navigable].
  change (p_name (set_navigable (v_class_ (p_values head)) head)) with (p_name head).
  destruct (truthy (v_class_ (p_values head))) eqn:Hnav; cbn [negb].
  - split; [|split; [done|]].
    + destruct (p_name head) as [name|] eqn:Hname.
      * split; [|intros [_ ?]; done]. intros H. exfalso. revert H.
        destruct (parse_association_tags _) as [[subsets redefines]|e] eqn:Htags; simpl.
        2:{ apply parse_association_tags_raises in Htags as [m ->]. done. }
        destruct (p_class_ head) as [class_|]; simpl; [|done].
        destruct (p_type head) as [type|]; simpl; [|done].
        unfold int_isDerived. simpl.
        destruct (truthy (v_isDerived (p_values head))); [|done].
        destruct (int _); done.
      * split; [done|]. intros _. done.
    + intros _ [name Hn] [class_ Hc] [type Ht] [[subsets redefines] Htags] [derived Hd].
      rewrite Hn. simpl. rewrite Htags, Hc, Ht. simpl.
      change (int_isDerived int _) with (int_isDerived int head). rewrite Hd.
      simpl. eauto.
  - split; [|split; [done|done]]. split; [done | intros [? _]; done].
Qed.
Lemma parse_association_end_bounds head head' :
  truthy (v_class_ (p_values head)) = true ->
  parse_association_end int head = Ok head' ->
  let upper := or_else (v_upperValue (p_values head)) "*" in
  let lower := or_else (v_lowerValue (p_values head)) upper in
  p_upper head' = Some upper /\
  p_lower head' = Some (if bool_decide (lower = "*") then BInt 0 else BStr lower).
Proof.
  intros Hnav. unfold parse_association_end. cbn [p_navigable set_navigable].
  rewrite Hnav. cbn [negb].
  destruct (p_name _) as [name|]; [|done].
  intros H. inv_bind H. destruct x as [subsets redefines].
  inv_bind H. inv_bind H. inv_bind H. injection H as <-. done.
Qed.

(** C7, amended: for a navigable end that [parse_association_end] returns,
    an [upperValue] that is absent or empty gives the upper bound ["*"],
    and any other [upperValue] is the upper bound; with [lowerValue]
    absent or empty the lower bound is the upper bound unless that is
    ["*"], and is the integer [0] if it is; the [lowerValue] ["*"] gives
    the lower bound [0]; any other [lowerValue] is the lower bound,
    whatever the upper bound. *)
Theorem parse_association_end_multiplicity head head' :
  truthy (v_class_ (p_values head)) = true ->
  parse_association_end int head = Ok head' ->
  (v_upperValue (p_values head) = None \/ v_upperValue (p_values head) = Some "" ->
   p_upper head' = Some "*")
  /\ (forall u, v_upperValue (p_values head) = Some u -> u <> "" -> p_upper head' = Some u)
  /\ (v_lowerValue (p_values head) = None \/ v_lowerValue (p_values head) = Some "" ->
      p_upper head' <> Some "*" -> p_lower head' = BStr <$> p_upper head')
  /\ (v_lowerValue (p_values head) = None \/ v_lowerValue (p_values head) = Some "" ->
      p_upper head' = Some "*" -> p_lower head' = Some (BInt 0))
  /\ (v_lowerValue (p_values head) = Some "*" -> p_lower head' = Some (BInt 0))
  /\ (forall l, v_lowerValue (p_values head) = Some l -> l <> "" -> l <> "*" ->
      p_lower head' = Some (BStr l)).
Proof.
  intros Hnav H. destruct (parse_association_end_bounds _ _ Hnav H) as [Hu Hl].
  rewrite Hu, Hl. clear H Hu Hl.
  assert (forall v u, v = None \/ v = Some "" -> or_else v u = u) as Habsent.
  { intros v u [-> | ->]; reflexivity. }
  assert (forall l u, l <> "" -> or_else (Some l) u = l) as Hpresent.
  { intros l u Hl. unfold or_else. simpl. by rewrite bool_decide_eq_true_2. }
  split; [|split; [|split; [|split; [|split]]]].
  - intros Hup. by rewrite Habsent.
  - intros u -> Hne. by rewrite Hpresent.
  - intros Hlow Hne. rewrite (Habsent _ _ Hlow).
    rewrite bool_decide_eq_false_2 by congruence. done.
  - intros Hlow [= Heq]. rewrite (Habsent _ _ Hlow). by rewrite Heq.
  - intros ->. by rewrite Hpresent.
  - intros l -> Hl Hstar. rewrite Hpresent by done.
    by rewrite bool_decide_eq_false_2.
Qed.
End ParseAssociationEnd.


Lemma parse_association_end_multiplicity_witness :
  (exists head',
     parse_association_end Examples.decimal (Examples.children None None) = Ok head' /\
     p_upper head' = Some "*" /\ p_lower head' = Some (BInt 0)) /\
  (exists head',
     parse_association_end Examples.decimal (Examples.children (Some "*") (Some "5"))
     = Ok head' /\
     p_upper head' = Some "5" /\ p_lower head' = Some (BInt 0)) /\
  (exists head',
     parse_association_end Examples.decimal (Examples.children None (Some "5")) = Ok head' /\
     p_lower head' = Some (BStr "5")) /\
  (exists head',
     parse_association_end Examples.decimal (Examples.children (Some "1") None) = Ok head' /\
     p_lower head' = Some (BStr "1")).
Proof.
  split; [|split; [|split]].
  - eexists. split; [vm_compute; reflexivity|].
    destruct (parse_association_end_multiplicity Examples.decimal
                (Examples.children None None) _ eq_refl eq_refl)
      as (Hu & _ & _ & Hl & _).
    split; [apply Hu | apply Hl]; auto.
  - eexists. split; [vm_compute; reflexivity|].
    destruct (parse_association_end_multiplicity Examples.decimal
                (Examples.children (Some "*") (Some "5")) _ eq_refl eq_refl)
      as (_ & Hu & _ & _ & Hl & _).
    split; [by apply Hu | by apply Hl].
  - eexists. split; [vm_compute; reflexivity|].
    destruct (parse_association_end_multiplicity Examples.decimal
                (Examples.children None (Some "5")) _ eq_refl eq_refl)
      as (_ & _ & Hl & _).
    apply Hl; [by left | done].
  - eexists. split; [vm_compute; reflexivity|].
    destruct (parse_association_end_multiplicity Examples.decimal
                (Examples.children (Some "1") None) _ eq_refl eq_refl)
      as (_ & _ & _ & _ & _ & Hl).
    by apply Hl.
Defined.

(** C7, as stated, fails at the multiplicity [1..*], where the resolved
    upper bound is ["*"] and the resolved lower bound is ["1"], not [0];
    and at an end without any bound, where the lower bound is [0] and not
    the upper bound ["*"]. *)
Lemma parse_association_end_one_to_many :
  (exists head',
     parse_association_end Examples.decimal (Examples.children (Some "1") None) = Ok head' /\
     truthy (v_class_ (p_values (Examples.children (Some "1") None))) = true /\
     p_upper head' = Some "*" /\ p_lower head' = Some (BStr "1")) /\
  (exists head',
     parse_association_end Examples.decimal (Examples.children None None) = Ok head' /\
     v_lowerValue (p_values (Examples.children None None)) = None /\
     p_lower head' = Some (BInt 0) /\ p_upper head' = Some "*").
Proof.
  split; eexists; (split; [vm_compute; reflexivity|]); repeat split.
Qed.


(** ** [get_association_ends] *)

Lemma getitem_raises {V} (d : dict string V) k e :
  getitem d k = Raise e -> e = KeyError k.
Proof.
  unfold getitem. destruct k as [key|]; [|by intros [= <-]].
  destruct (dict_get key d); [done | by intros [= <-]].
Qed.

Lemma getitem_absent {V} (d : dict string V) t :
  t ∉ dict_keys d -> getitem d (Some t) = Raise (KeyError (Some t)).
Proof. intros H. apply dict_get_None in H. unfold getitem. by rewrite H. Qed.

Lemma dict_get_filter_notin {V} (M : list string) (d : dict string V) t :
  t ∉ M -> dict_get t (filter (fun kv => kv.1 ∉ M) d) = dict_get t d.
Proof.
  intros Ht. induction d as [|[k v] d IH]; [done|].
  destruct (decide (k ∉ M)) as [Hk|Hk].
  - rewrite filter_cons_True by done. simpl. by rewrite IH.
  - rewrite filter_cons_False by done. simpl. rewrite IH.
    case_decide; [subst; done | done].
Qed.

Section GetAssociationEnds.
Variable classes : dict string Class.
Implicit Types (properties : dict string Property) (ends : list string).

Lemma get_association_end_raises acc r e :
  get_association_end classes acc r = Raise e -> is_KeyError e.
Proof.
  destruct acc as [[properties asAttribute] ends]. unfold get_association_end.
  destruct (getitem properties (Some r)) as [p|e1] eqn:E1; simpl.
  2:{ intros [= <-]. apply getitem_raises in E1. by eexists. }
  destruct (getitem classes (v_type (p_values p))) as [type|e2] eqn:E2; simpl.
  2:{ intros [= <-]. apply getitem_raises in E2. by eexists. }
  destruct (truthy (v_class_ (p_values p))); simpl; [|done].
  destruct (getitem classes (v_class_ (p_values p))) as [c|e3] eqn:E3; simpl; [done|].
  intros [= <-]. apply getitem_raises in E3. by eexists.
Qed.

(** Resolving an end assigns attributes and leaves the fields of the model
    file of every property as they are. *)
Lemma get_association_end_values properties asAttribute ends r properties' a' ends' k :
  get_association_end classes (properties, asAttribute, ends) r
  = Ok (properties', a', ends') ->
  p_values <$> dict_get k properties' = p_values <$> dict_get k properties.
Proof.
  unfold get_association_end. intros H.
  inv_bind H. inv_bind H. inv_bind H. injection H as <- <- <-.
  rewrite dict_get_update. case_decide; [|done].
  by destruct (dict_get k properties).
Qed.

Lemma get_association_end_removed_type properties asAttribute ends r p t :
  dict_get r properties = Some p -> v_type (p_values p) = Some t ->
  t ∉ dict_keys classes ->
  get_association_end classes (properties, asAttribute, ends) r
  = Raise (KeyError (Some t)).
Proof.
  intros Hr Ht Hnin. unfold get_association_end.
  assert (getitem properties (Some r) = Ok p) as -> by (unfold getitem; by rewrite Hr).
  simpl. rewrite Ht, getitem_absent by done. done.
Qed.

Lemma for_each_get_association_end_removed_type memberEnd acc r p t :
  r ∈ memberEnd -> dict_get r acc.1.1 = Some p -> v_type (p_values p) = Some t ->
  t ∉ dict_keys classes ->
  exists k, for_each (get_association_end classes) memberEnd acc = Raise (KeyError k).
Proof.
  intros Hin Hr Ht Hnin. revert acc p Hr Ht.
  induction memberEnd as [|x memberEnd IH]; intros acc p Hr Ht.
  { by apply elem_of_nil in Hin. }
  destruct acc as [[properties asAttribute] ends]. simpl in Hr. cbn [for_each].
  destruct (get_association_end classes (properties, asAttribute, ends) x)
    as [[[properties' asAttribute'] ends']|e] eqn:E; simpl.
  - apply elem_of_cons in Hin as [->|Hin].
    + erewrite get_association_end_removed_type in E; done.
    + pose proof (get_association_end_values _ _ _ _ _ _ _ r E) as Hv.
      rewrite Hr in Hv. simpl in Hv.
      destruct (dict_get r properties') as [p'|] eqn:Hr'; [|done].
      injection Hv as Hv. apply (IH Hin _ p'); [done|]. by rewrite Hv.
  - apply get_association_end_raises in E as [k ->]. by eexists.
Qed.
Lemma get_association_end_Ok properties asAttribute ends r acc :
  get_association_end classes (properties, asAttribute, ends) r = Ok acc ->
  exists p type class_,
    dict_get r properties = Some p /\
    type_class properties classes r = Some type /\
    owner_class properties classes r = Some class_ /\
    acc = (dict_update r (fun e => set_is_simple_attribute (Some (is_SimpleAttribute type))
                                     (set_class_ class_ (set_type (Some type) e)))
             properties,
           if is_SimpleAttribute type then Some r else asAttribute,
           ends ++ [r]).
Proof.
  unfold get_association_end, type_class, owner_class, getitem. intros H.
  destruct (dict_get r properties) as [p|] eqn:Hp; [|done]. simpl in *.
  destruct (v_type (p_values p)) as [t|]; [|done]. simpl in *.
  destruct (dict_get t classes) as [type|]; [|done]. simpl in *.
  exists p, type. destruct (truthy (v_class_ (p_values p))); simpl in *.
  - destruct (v_class_ (p_values p)) as [k|]; [|done]. simpl in *.
    destruct (dict_get k classes) as [c|]; [|done]. simpl in *.
    injection H as <-. by exists (Some c).
  - injection H as <-. by exists None.
Qed.

Lemma get_association_end_resolvable properties asAttribute ends r :
  resolvable properties classes r ->
  exists acc, get_association_end classes (properties, asAttribute, ends) r = Ok acc.
Proof.
  unfold resolvable, type_class, owner_class, get_association_end, getitem.
  intros [[type Htype] [class_ Hclass]].
  destruct (dict_get r properties) as [p|]; [|done]. simpl in *.
  destruct (v_type (p_values p)) as [t|]; [|done]. simpl in *.
  rewrite Htype. simpl.
  destruct (truthy (v_class_ (p_values p))); simpl; [|eauto].
  destruct (v_class_ (p_values p)) as [k|]; [|done]. simpl in *.
  destruct (dict_get k classes); [|done]. simpl. eauto.
Qed.

(** The classes that the references of an end find depend on the fields of
    the model file only, which resolving ends does not change. *)
Lemma type_class_values properties properties' r :
  (forall k, p_values <$> dict_get k properties' = p_values <$> dict_get k properties) ->
  type_class properties' classes r = type_class properties classes r /\
  owner_class properties' classes r = owner_class properties classes r.
Proof.
  intros Hv. specialize (Hv r). unfold type_class, owner_class.
  destruct (dict_get r properties') as [p'|], (dict_get r properties) as [p|];
    simpl in *; try done.
  injection Hv as ->. done.
Qed.

Lemma dict_update_values properties r (f : Property -> Property) k :
  (forall p, p_values (f p) = p_values p) ->
  p_values <$> dict_get k (dict_update r f properties) = p_values <$> dict_get k properties.
Proof.
  intros Hf. rewrite dict_get_update. case_decide; [|done].
  destruct (dict_get k properties); simpl; [|done]. by rewrite Hf.
Qed.

Lemma for_each_get_association_end memberEnd properties asAttribute ends
    properties' asAttribute' ends' :
  for_each (get_association_end classes) memberEnd (properties, asAttribute, ends)
  = Ok (properties', asAttribute', ends') ->
  ends' = ends ++ memberEnd
  /\ asAttribute'
     = match last (filter (fun r => typed_simple properties classes r = true) memberEnd) with
       | Some r => Some r
       | None => asAttribute
       end
  /\ dict_keys properties' = dict_keys properties
  /\ (forall k, p_values <$> dict_get k properties' = p_values <$> dict_get k properties)
  /\ (forall k, k ∉ memberEnd -> dict_get k properties' = dict_get k properties)
  /\ (forall r, r ∈ memberEnd ->
        exists p' type class_,
          dict_get r properties' = Some p' /\
          type_class properties classes r = Some type /\
          owner_class properties classes r = Some class_ /\
          p_type p' = Some type /\ p_class_ p' = class_ /\
          p_is_simple_attribute p' = Some (is_SimpleAttribute type)).
Proof.
  revert properties asAttribute ends.
  induction memberEnd as [|x memberEnd IH]; intros properties asAttribute ends; simpl.
  - intros [= <- <- <-]. rewrite app_nil_r. repeat split; try done.
    intros r Hr. by apply elem_of_nil in Hr.
  - intros H. inv_bind H.
    apply get_association_end_Ok in E as (p & type & class_ & Hp & Htype & Hclass & ->).
    set (f := fun e => set_is_simple_attribute (Some (is_SimpleAttribute type))
                         (set_class_ class_ (set_type (Some type) e))) in *.
    apply IH in H as (-> & -> & Hkeys & Hvalues & Hother & Hends). clear IH.
    assert (forall k, p_values <$> dict_get k (dict_update x f properties)
                      = p_values <$> dict_get k properties) as Hv1.
    { intros k. by apply dict_update_values. }
    assert (forall r, typed_simple (dict_update x f properties) classes r
                      = typed_simple properties classes r) as Hsimple.
    { intros r. unfold typed_simple.
      by destruct (type_class_values _ _ r Hv1) as [-> _]. }
    split; [by rewrite <- app_assoc|]. split; [|split; [|split; [|split]]].
    + rewrite (list_filter_iff _ (fun r => typed_simple properties classes r = true))
        by (intros r; by rewrite Hsimple).
      assert (typed_simple properties classes x = is_SimpleAttribute type) as Hx.
      { unfold typed_simple. by rewrite Htype. }
      destruct (is_SimpleAttribute type) eqn:Hs.
      * rewrite filter_cons_True by done.
        destruct (filter _ memberEnd) as [|y l] eqn:Hf; [done|].
        rewrite last_cons_cons. destruct (last (y :: l)) eqn:Hl; [done|].
        by apply last_None in Hl.
      * rewrite filter_cons_False by (by rewrite Hx). done.
    + by rewrite Hkeys, dict_keys_update.
    + intros k. by rewrite Hvalues, Hv1.
    + intros k Hk. apply not_elem_of_cons in Hk as [Hkx Hk].
      rewrite Hother by done. rewrite dict_get_update. by rewrite decide_False.
    + intros r Hr. destruct (type_class_values _ _ r Hv1) as [Ht Ho].
      destruct (decide (r ∈ memberEnd)) as [Hin|Hnin].
      * destruct (Hends r Hin) as (p' & type' & class_' & ? & ? & ? & ?).
        exists p', type', class_'. rewrite <- Ht, <- Ho. done.
      * apply elem_of_cons in Hr as [->|Hr]; [|done].
        exists (f p), type, class_. rewrite Hother by done.
        rewrite dict_get_update, decide_True, Hp by done. done.
Qed.
End GetAssociationEnds.

Lemma resolvable_values classes properties properties' r :
  (forall k, p_values <$> dict_get k properties' = p_values <$> dict_get k properties) ->
  resolvable properties' classes r <-> resolvable properties classes r.
Proof.
  intros Hv. unfold resolvable.
  by destruct (type_class_values classes _ _ r Hv) as [-> ->].
Qed.

Lemma for_each_get_association_end_returns classes memberEnd acc :
  (exists acc', for_each (get_association_end classes) memberEnd acc = Ok acc')
  <-> Forall (resolvable acc.1.1 classes) memberEnd.
Proof.
  revert acc. induction memberEnd as [|x memberEnd IH]; intros [[properties asAttribute] ends].
  { simpl. split; [by constructor | eauto]. }
  cbn [for_each fst]. split.
  - intros [acc' H]. inv_bind H. destruct x0 as [[properties1 asAttribute1] ends1].
    pose proof E as Hstep.
    apply get_association_end_Ok in E as (p & type & class_ & Hp & Htype & Hclass & Heq).
    injection Heq as -> -> ->. constructor.
    + split; [by rewrite Htype | by rewrite Hclass].
    + assert (Forall (resolvable (dict_update x
                (fun e => set_is_simple_attribute (Some (is_SimpleAttribute type))
                            (set_class_ class_ (set_type (Some type) e))) properties)
                classes) memberEnd) as Hall.
      { eapply (proj1 (IH (_, _, _))). eexists. exact H. }
      eapply Forall_impl; [exact Hall|]. intros r Hr.
      refine (proj1 (resolvable_values classes properties _ r _) Hr).
      intros k. by apply dict_update_values.
  - intros Hall. apply Forall_cons in Hall as [Hx Hall].
    destruct (get_association_end_resolvable classes properties asAttribute ends x Hx)
      as [acc1 Hstep].
    rewrite Hstep. cbn [mbind result_bind]. apply IH.
    destruct acc1 as [[properties1 asAttribute1] ends1].
    apply get_association_end_Ok in Hstep as (p & type & class_ & _ & _ & _ & Heq).
    injection Heq as -> -> ->. cbn [fst].
    eapply Forall_impl; [exact Hall|]. intros r Hr.
    refine (proj2 (resolvable_values classes properties _ r _) Hr).
    intros k. by apply dict_update_values.
Qed.


(** C4, as stated, fails for the [SimpleAttribute] classes: in the run
    on the [Box] and [Color] model the end [color] has the type [Color],
    a [SimpleAttribute] class that is not in the class map after both
    filters; the lookup of its type raises nothing, the run returns, and
    the end is handed to the writer as a simple attribute. *)
Lemma simple_attribute_type_lookup_succeeds :
  is_SimpleAttribute Examples.Color = true /\
  (exists p, dict_get "p1" Examples.box_properties = Some p /\
             "p1" ∈ as_memberEnd Examples.box_association /\
             v_type (p_values p) = Some "c2") /\
  dict_get "c2" Examples.box_classes = Some Examples.Color /\
  (forall classes, filter_out_metaclasses Examples.box_classes [] [] = Ok classes ->
     dict_get "c2" (filter_out_simple_attributes classes) = None) /\
  exists st e,
    generate Examples.nothing_derives Examples.decimal p_class_name
      Examples.box_classes [("a1", Examples.box_association)] Examples.box_properties
      [] [] [] None = Ok st /\
    calls st = [add_classdef Examples.Box;
                add_comment "'Box.color' is a simple attribute";
                add_attribute e true; write None header] /\
    p_id e = "p1" /\ p_type e = Some Examples.Color.
Proof.
  split; [reflexivity|]. split.
  { eexists. split; [reflexivity|]. split; [apply list_elem_of_here | reflexivity]. }
  split; [reflexivity|]. split.
  { intros classes [= <-]. reflexivity. }
  eexists _, _. split; [vm_compute; reflexivity|]. repeat split.
Qed.

Section ResolvedAgainst.
Variable derives : string -> bool.
Variable int : string -> option Z.
Variable get_class_name : Property -> option string.

(** C4, amended: [generate] resolves the ends of every association
    against the class map that [filter_out_metaclasses] returns, before
    the [SimpleAttribute] classes are filtered out.  When the loop reaches
    an association, the run goes on with the loop body on that map; an end
    whose type is a removed metaclass makes the run raise [KeyError]; a
    [SimpleAttribute] class that is no metaclass is not among the retained
    classes, yet, the ends of the association being resolvable, the lookup
    of an end of that type returns the class, which becomes the [type] of
    the end, and the last end with such a type becomes [asAttribute]. *)
Theorem association_ends_resolved_before_simple_attribute_filter
    (classes all_classes : dict string Class) (associations : dict string Association)
    (props : dict string Property) (operations : dict string Operation)
    (extensions : dict string Extension) (all_elements : dict string element)
    (outfile : option string) (st1 st2 : state)
    (earlier later : list Association) (a : Association) :
  let retained := filter_out_simple_attributes all_classes in
  filter_out_metaclasses classes extensions all_elements = Ok all_classes ->
  for_each (resolve_attributes derives) (dict_values retained)
    (first_state retained props) = Ok st1 ->
  dict_values associations = earlier ++ a :: later ->
  for_each (resolve_association derives int get_class_name all_classes) earlier st1
  = Ok st2 ->
  generate derives int get_class_name classes associations props operations
    extensions all_elements outfile
  = (st ← resolve_association derives int get_class_name all_classes st2 a;
     st ← for_each (resolve_association derives int get_class_name all_classes) later st;
     after_associations retained operations outfile st)
  /\ (forall r p t,
        r ∈ as_memberEnd a -> dict_get r (properties st2) = Some p ->
        v_type (p_values p) = Some t ->
        t ∈ metaclasses all_elements (dict_values extensions) ->
        exists k,
          generate derives int get_class_name classes associations props operations
            extensions all_elements outfile = Raise (KeyError k))
  /\ (forall r p t c,
        r ∈ as_memberEnd a -> dict_get r (properties st2) = Some p ->
        v_type (p_values p) = Some t ->
        dict_get t classes = Some c -> is_SimpleAttribute c = true ->
        t ∉ metaclasses all_elements (dict_values extensions) ->
        Forall (resolvable (properties st2) all_classes) (as_memberEnd a) ->
        ((t, c) ∉ retained)
        /\ exists properties' asAttribute p',
            get_association_ends a (properties st2) all_classes
            = Ok (properties', Some asAttribute, as_memberEnd a)
            /\ last (filter (fun r => typed_simple (properties st2) all_classes r = true)
                       (as_memberEnd a)) = Some asAttribute
            /\ dict_get r properties' = Some p' /\ p_type p' = Some c).
Proof.
  intros retained Hfilter Hattributes Hassociations Hearlier.
  assert (generate derives int get_class_name classes associations props operations
            extensions all_elements outfile
          = (st ← resolve_association derives int get_class_name all_classes st2 a;
             st ← for_each (resolve_association derives int get_class_name all_classes)
                    later st;
             after_associations retained operations outfile st)) as Hrun.
  { unfold generate. rewrite Hfilter. cbn [mbind result_bind].
    fold retained. change {| properties := props; derivedattributes := [];
                             derivedunions := []; redefines := [];
                             calls := add_classdef <$> dict_values retained |}
      with (first_state retained props).
    rewrite Hattributes. cbn [mbind result_bind].
    rewrite Hassociations, for_each_app, Hearlier. cbn [mbind result_bind for_each].
    destruct (resolve_association derives int get_class_name all_classes st2 a) as [st3|];
      cbn [mbind result_bind]; [|done].
    destruct (for_each _ later st3); cbn [mbind result_bind]; done. }
  pose proof Hfilter as Hall. apply for_each_filter_out_metaclass in Hall.
  set (M := metaclasses all_elements (dict_values extensions)) in *.
  split; [exact Hrun|]. split.
  - intros r p t Hin Hr Ht HM. rewrite Hrun. unfold resolve_association.
    destruct (for_each_get_association_end_removed_type all_classes (as_memberEnd a)
                (properties st2, None, []) r p t Hin Hr Ht) as [k Hk].
    { rewrite Hall. unfold dict_keys. rewrite list_elem_of_fmap. intros [[k c] [-> Hf]].
      apply list_elem_of_filter in Hf as [Hf _]. done. }
    unfold get_association_ends. rewrite Hk. by eexists.
  - intros r p t c Hin Hr Ht Hc Hsimple HM Hresolvable.
    assert (dict_get t all_classes = Some c) as Htc.
    { rewrite Hall, <- Hc. by apply dict_get_filter_notin. }
    split.
    { intros Hret. unfold retained, filter_out_simple_attributes in Hret.
      apply list_elem_of_filter in Hret as [Hns _]. simpl in Hns. congruence. }
    apply (for_each_get_association_end_returns all_classes _ (properties st2, None, []))
      in Hresolvable as [[[properties' asAttribute] ends] Hends].
    pose proof Hends as Hres.
    apply for_each_get_association_end in Hres as (Hends' & HasA & _ & _ & _ & Hprops).
    simpl in Hends'. subst ends.
    assert (typed_simple (properties st2) all_classes r = true) as Hts.
    { unfold typed_simple, type_class. rewrite Hr. simpl. rewrite Ht. simpl.
      by rewrite Htc. }
    destruct (last (filter (fun r => typed_simple (properties st2) all_classes r = true)
                      (as_memberEnd a))) as [x|] eqn:Hlast.
    2:{ apply last_None in Hlast.
        assert (r ∈ filter (fun r => typed_simple (properties st2) all_classes r = true)
                      (as_memberEnd a)) as Hf by (by apply list_elem_of_filter).
        rewrite Hlast in Hf. by apply elem_of_nil in Hf. }
    subst asAttribute.
    destruct (Hprops r Hin) as (p' & type & class_ & Hp' & Htype & _ & Hptype & _).
    exists properties', x, p'. split; [exact Hends|]. split; [done|]. split; [done|].
    rewrite Hptype. f_equal. unfold type_class in Htype. rewrite Hr in Htype. simpl in Htype.
    rewrite Ht in Htype. simpl in Htype. congruence.
Qed.
End ResolvedAgainst.

Lemma association_ends_resolved_before_simple_attribute_filter_witness :
  exists properties' p',
    get_association_ends Examples.box_association
      (dict_update "p1" (set_class_name (Some "Box")) Examples.box_properties)
      Examples.box_classes = Ok (properties', Some "p1", ["p1"; "p2"])
    /\ dict_get "p1" properties' = Some p' /\ p_type p' = Some Examples.Color.
Proof.
  destruct (proj2 (proj2 (association_ends_resolved_before_simple_attribute_filter
              Examples.nothing_derives Examples.decimal p_class_name
              Examples.box_classes Examples.box_classes
              [("a1", Examples.box_association)] Examples.box_properties [] [] [] None
              _ _ [] [] Examples.box_association eq_refl eq_refl eq_refl eq_refl))
            "p1" _ "c2" Examples.Color ltac:(apply list_elem_of_here) eq_refl eq_refl
            eq_refl eq_refl ltac:(apply not_elem_of_nil)
            ltac:(repeat constructor; vm_compute; eauto))
    as (_ & properties' & asAttribute & p' & Hends & Hlast & Hp' & Htype).
  exists properties', p'. split; [|done].
  vm_compute in Hlast. injection Hlast as <-. exact Hends.
Defined.


(** ** The classification of association ends *)

Lemma deref_Ok st ref p : deref st ref = Ok p <-> dict_get ref (properties st) = Some p.
Proof.
  unfold deref. destruct (dict_get ref (properties st)); split; congruence.
Qed.

Section ResolveEnd.
Variable derives : string -> bool.
Variable get_class_name : Property -> option string.
Implicit Types st : state.

Local Abbreviation resolve_end' := (resolve_end derives get_class_name).
Local Abbreviation is_derived' := (is_derived derives get_class_name).
Local Abbreviation classification' := (classification derives get_class_name).

(** C1, amended: the loop body settles the end [e1] by exactly one of five
    outcomes, tested in the order simple attribute, redefinition, derived
    union member, plain association, with "non-navigable" as what remains;
    each outcome has its own effect only.  In particular an end that is
    registered as a derived union is neither queued as a redefinition nor
    handed to the writer in that step. *)
Theorem resolve_end_classification asAttribute st (e1 e2 : string) (p1 : Property) st' :
  deref st e1 = Ok p1 ->
  resolve_end' asAttribute st e1 e2 = Ok st' ->
  match classification' asAttribute p1 with
  | SimpleAttribute =>
      derivedunions st' = derivedunions st /\ redefines st' = redefines st /\
      if bool_decide (asAttribute = Some e1) && truthy (p_navigable p1)
      then exists text a, calls st' = calls st ++ [add_comment text; add_attribute a true]
      else st' = st
  | Redefinition => st' = append_redefine e1 st
  | DerivedUnionMember =>
      dict_get (p_name p1) (derivedunions st) = None /\
      derivedunions st' = derivedunions st ++ [(p_name p1, e1)] /\
      redefines st' = redefines st /\ calls st' = calls st
  | PlainAssociation =>
      exists p2, deref st e2 = Ok p2 /\ st' = emit (add_association p1 p2) st
  | NonNavigable => st' = st
  end.
Proof.
  intros Hp1. unfold resolve_end, classification.
  rewrite Hp1. simpl.
  destruct (bool_decide (asAttribute <> None)).
  { destruct (bool_decide (asAttribute = Some e1) && truthy (p_navigable p1)).
    - intros H. inv_bind H. inv_bind H. inv_bind H. injection H as <-.
      simpl. split; [done|]. split; [done|].
      eexists _, _. by rewrite <- app_assoc.
    - intros [= <-]. done. }
  destruct (truthy (p_redefines p1)); [by intros [= <-]|].
  destruct (is_derived' p1).
  { destruct (dict_get (p_name p1) (derivedunions st)) as [d|] eqn:Hd.
    - intros H. destruct (deref st d); done.
    - intros [= <-]. simpl. by rewrite dict_set_absent. }
  destruct (truthy (p_navigable p1)); [|by intros [= <-]].
  intros H. inv_bind H. injection H as <-. eauto.
Qed.

(** C5: for an end that reaches the registration as a derived union, a
    name that is already registered makes the generation fail with the
    assertion error whose message names the class and the name of the end
    and the class of the registered end; a fresh name is registered for
    the end, the end gets the empty list as its [union] and [written =
    False] and keeps its other attributes, every other property is
    unchanged, and nothing is handed to the writer, queued as a
    redefinition or registered as a derived attribute. *)
Theorem derived_union_registration st (e1 e2 : string) (p1 : Property) :
  deref st e1 = Ok p1 ->
  truthy (p_redefines p1) = false ->
  is_derived' p1 = true ->
  (forall d pd,
      dict_get (p_name p1) (derivedunions st) = Some d -> deref st d = Ok pd ->
      resolve_end' None st e1 e2
      = Raise (AssertionError (str (p_class_name p1) +:+ "." +:+ str (p_name p1) +:+
                               " is already in derived union set in class " +:+
                               str (p_class_name pd))))
  /\ (dict_get (p_name p1) (derivedunions st) = None ->
      exists st' p1',
        resolve_end' None st e1 e2 = Ok st' /\
        derivedunions st' = derivedunions st ++ [(p_name p1, e1)] /\
        dict_get (p_name p1) (derivedunions st') = Some e1 /\
        deref st' e1 = Ok p1' /\
        p_union p1' = Some [] /\ p_written p1' = false /\
        p1' = set_written false (set_union (Some []) p1) /\
        (forall k, k <> e1 -> dict_get k (properties st') = dict_get k (properties st)) /\
        calls st' = calls st /\ redefines st' = redefines st /\
        derivedattributes st' = derivedattributes st).
Proof.
  intros Hp1 Hredefines Hderived. unfold resolve_end.
  rewrite Hp1. simpl. rewrite Hredefines, Hderived. split.
  - intros d pd -> ->. done.
  - intros Hfresh. rewrite Hfresh. eexists _, (set_written false (set_union (Some []) p1)).
    split; [done|]. simpl.
    rewrite dict_set_absent by done. split; [done|]. split.
    { induction (derivedunions st) as [|[k v] l IH]; simpl in *.
      - by rewrite decide_True.
      - destruct (decide (k = p_name p1)); [done|]. by apply IH. }
    split.
    { apply deref_Ok. simpl. apply deref_Ok in Hp1.
      rewrite !dict_get_update, !decide_True, Hp1 by done. done. }
    split; [done|]. split; [done|]. split; [done|]. split; [|done].
    intros k Hk. by rewrite !dict_get_update, !decide_False.
Qed.
End ResolveEnd.


(** ** The simple attribute scenario *)

Lemma getitem_Some {V} (d : dict string V) k v :
  dict_get k d = Some v -> getitem d (Some k) = Ok v.
Proof. intros H. unfold getitem. by rewrite H. Qed.

Section SimpleAttribute.
Variable derives : string -> bool.
Variable int : string -> option Z.
Variable get_class_name : Property -> option string.

Ltac dict_lookup :=
  cbn [properties with_properties assign emit];
  rewrite ?dict_get_update;
  repeat match goal with
    | |- context [decide (?x = ?y)] =>
        first [ rewrite (decide_True (P := x = y)) by done
              | rewrite (decide_False (P := x = y)) by (done || congruence) ]
    end.

Lemma parse_end_Ok st e p p' :
  dict_get e (properties st) = Some p -> parse_association_end int p = Ok p' ->
  parse_end int st e = Ok (assign e (fun _ => p') st).
Proof.
  intros He Hp. unfold parse_end, deref. rewrite He. cbn [mbind result_bind].
  by rewrite Hp.
Qed.

Lemma resolve_end_asAttribute st e1 e2 p1 p2 name :
  dict_get e1 (properties st) = Some p1 -> truthy (p_navigable p1) = true ->
  dict_get e2 (properties st) = Some p2 -> type_name p2 = Ok name ->
  resolve_end derives get_class_name (Some e1) st e1 e2
  = Ok (assign e2 (set_written true) (assign e1 (set_written true)
         (emit (add_attribute (set_typeValue (Some "str") (set_class_name name p1)) true)
         (assign e1 (set_typeValue (Some "str")) (assign e1 (set_class_name name)
         (emit (add_comment ("'" +:+ str name +:+ "." +:+ str (p_name p1)
                             +:+ "' is a simple attribute")) st)))))).
Proof.
  intros H1 Hnav H2 Hname. unfold resolve_end.
  rewrite (proj2 (deref_Ok _ _ _) H1). cbn [mbind result_bind].
  rewrite Hnav, !bool_decide_eq_true_2 by done. cbn [andb].
  rewrite (proj2 (deref_Ok _ _ _) H2). cbn [mbind result_bind].
  rewrite Hname. cbn [mbind result_bind].
  erewrite (proj2 (deref_Ok _ _ _)); [done|].
  dict_lookup. by rewrite H1.
Qed.

Lemma resolve_end_not_asAttribute st e1 e2 p1 other :
  dict_get e1 (properties st) = Some p1 -> other <> e1 ->
  resolve_end derives get_class_name (Some other) st e1 e2 = Ok st.
Proof.
  intros H1 Hne. unfold resolve_end.
  rewrite (proj2 (deref_Ok _ _ _) H1). cbn [mbind result_bind].
  rewrite bool_decide_eq_true_2 by done.
  rewrite (bool_decide_eq_false_2 (Some other = Some e1)) by congruence. done.
Qed.

(** C9: in the simple attribute scenario the loop body for the association
    hands the writer one comment and one attribute call for the end
    [color], with [class_name] ["Box"] and [typeValue] ["str"], and no
    association call; both ends are marked written, and nothing is
    registered as a derived union or queued as a redefinition. *)
Theorem simple_attribute_association all_classes st a color box :
  simple_attribute_scenario int all_classes (properties st) a color box ->
  exists st' e,
    resolve_association derives int get_class_name all_classes st a = Ok st' /\
    calls st' = calls st ++ [add_comment "'Box.color' is a simple attribute";
                             add_attribute e true] /\
    p_name e = Some "color" /\ p_class_name e = Some "Box" /\
    p_typeValue e = Some "str" /\
    p_written <$> dict_get color (properties st') = Some true /\
    p_written <$> dict_get box (properties st') = Some true /\
    derivedunions st' = derivedunions st /\ redefines st' = redefines st.
Proof.
  intros [Hends Hne (pc & tags & derived & Hpc & Hname & Htags & Hderived)
            (pc' & tbox & Box & Hpc' & Hclass & Htbox & HBox & HBoxname)
            (pc'' & tcolor & Color & Hpc'' & Htype & HColor & Hsimple)
            (pb & tbox' & Box' & Hpb & Hbtype & HBox' & HBoxname' & HBoxplain)
            (pb' & Hpb' & Hbox)].
  rewrite Hpc in Hpc', Hpc''. injection Hpc' as <-. injection Hpc'' as <-.
  rewrite Hpb in Hpb'. injection Hpb' as <-.
  assert (HgetC : forall props asAttribute ends,
             dict_get color props = Some pc ->
             get_association_end all_classes (props, asAttribute, ends) color
             = Ok (dict_update color
                     (fun e => set_is_simple_attribute (Some true)
                                 (set_class_ (Some Box) (set_type (Some Color) e))) props,
                   Some color, ends ++ [color])).
  { intros props asAttribute ends Hp. unfold get_association_end.
    rewrite (getitem_Some _ _ _ Hp). cbn [mbind result_bind].
    rewrite Htype, (getitem_Some _ _ _ HColor). cbn [mbind result_bind].
    rewrite Hclass. cbn [truthy]. rewrite (bool_decide_eq_true_2 _ Htbox).
    rewrite (getitem_Some _ _ _ HBox). cbn [mbind result_bind].
    unfold is_SimpleAttribute. rewrite Hsimple. done. }
  assert (exists class_b pb1,
             (forall props asAttribute ends,
                 dict_get box props = Some pb ->
                 get_association_end all_classes (props, asAttribute, ends) box
                 = Ok (dict_update box
                         (fun e => set_is_simple_attribute (Some false)
                                     (set_class_ class_b (set_type (Some Box') e))) props,
                       asAttribute, ends ++ [box])) /\
             parse_association_end int
               (set_is_simple_attribute (Some false)
                  (set_class_ class_b (set_type (Some Box') pb))) = Ok pb1 /\
             p_type pb1 = Some Box') as (class_b & pb1 & HgetB & Hparse_b & Htype_b).
  { assert (is_SimpleAttribute Box' = false) as Hplain.
    { unfold is_SimpleAttribute. by rewrite bool_decide_eq_false_2. }
    destruct Hbox as [Hbnav | (Hbnav & [name_b Hbname] & [c Hc] & [[subsets redefines] Hbtags]
                               & [derived_b Hbderived])].
    - exists None. eexists. split; [|split].
      + intros props asAttribute ends Hp. unfold get_association_end.
        rewrite (getitem_Some _ _ _ Hp). cbn [mbind result_bind].
        rewrite Hbtype, (getitem_Some _ _ _ HBox'). cbn [mbind result_bind].
        rewrite Hbnav. cbn [mbind result_bind]. by rewrite Hplain.
      + unfold parse_association_end. simpl. rewrite Hbnav. done.
      + done.
    - exists (Some c). eexists. split; [|split].
      + intros props asAttribute ends Hp. unfold get_association_end.
        rewrite (getitem_Some _ _ _ Hp). cbn [mbind result_bind].
        rewrite Hbtype, (getitem_Some _ _ _ HBox'). cbn [mbind result_bind].
        rewrite Hbnav, Hc. cbn [mbind result_bind]. by rewrite Hplain.
      + unfold parse_association_end. simpl. rewrite Hbnav. simpl.
        unfold p_name. simpl. rewrite Hbname, Hbtags. simpl.
        change (int_isDerived int _) with (int_isDerived int pb). rewrite Hbderived.
        simpl. done.
      + done. }
  set (fc := fun e => set_is_simple_attribute (Some true)
                        (set_class_ (Some Box) (set_type (Some Color) e))) in *.
  set (fb := fun e => set_is_simple_attribute (Some false)
                        (set_class_ class_b (set_type (Some Box') e))) in *.
  change (parse_association_end int (fb pb) = Ok pb1) in Hparse_b.
  assert (Hparse_c : exists pc1,
             parse_association_end int (fc pc) = Ok pc1 /\
             p_values pc1 = p_values pc /\ p_navigable pc1 = Some tbox /\
             p_written pc1 = p_written pc).
  { unfold parse_association_end. simpl.
    rewrite Hclass. simpl. rewrite (bool_decide_eq_true_2 _ Htbox). simpl.
    unfold p_name. simpl. rewrite Hname, Htags. simpl.
    destruct tags as [subsets redefines].
    change (int_isDerived int _) with (int_isDerived int pc). rewrite Hderived.
    simpl. eexists. split; [done|]. done. }
  destruct Hparse_c as (pc1 & Hparse_c & Hv1 & Hnav1 & Hw1).
  assert (Hname1 : p_name pc1 = Some "color").
  { unfold p_name. by rewrite Hv1. }
  assert (Hnavigable : truthy (p_navigable pc1) = true).
  { rewrite Hnav1. simpl. by apply bool_decide_eq_true_2. }
  assert (Htn : type_name pb1 = Ok (Some "Box")).
  { unfold type_name. rewrite Htype_b. by rewrite HBoxname'. }
  assert (Hne' : box <> color) by congruence.
  unfold resolve_association, get_association_ends.
  destruct Hends as [-> | ->]; cbn [for_each].
  - rewrite (HgetC _ _ _ Hpc). cbn [mbind result_bind].
    rewrite HgetB by (dict_lookup; done).
    cbn [mbind result_bind app tuple_index lookup list_lookup].
    erewrite parse_end_Ok; [| |exact Hparse_c].
    2:{ dict_lookup. by rewrite Hpc. }
    cbn [mbind result_bind].
    erewrite parse_end_Ok; [| |exact Hparse_b].
    2:{ dict_lookup. by rewrite Hpb. }
    cbn [mbind result_bind].
    erewrite resolve_end_asAttribute; [| | exact Hnavigable | | exact Htn].
    2:{ dict_lookup. by rewrite Hpc. }
    2:{ dict_lookup. by rewrite Hpb. }
    cbn [mbind result_bind]. rewrite Hname1.
    erewrite resolve_end_not_asAttribute; [| |done].
    2:{ dict_lookup. by rewrite Hpb. }
    eexists _, _. split; [reflexivity|].
    cbn [calls assign emit with_properties str default String.append].
    rewrite <- app_assoc. split; [reflexivity|].
    split; [done|]. split; [done|]. split; [done|].
    split; [dict_lookup; by rewrite Hpc|].
    split; [dict_lookup; by rewrite Hpb|]. done.
  - rewrite (HgetB _ _ _ Hpb). cbn [mbind result_bind].
    rewrite HgetC by (dict_lookup; done).
    cbn [mbind result_bind app tuple_index lookup list_lookup].
    erewrite parse_end_Ok; [| |exact Hparse_b].
    2:{ dict_lookup. by rewrite Hpb. }
    cbn [mbind result_bind].
    erewrite parse_end_Ok; [| |exact Hparse_c].
    2:{ dict_lookup. by rewrite Hpc. }
    cbn [mbind result_bind].
    erewrite resolve_end_not_asAttribute; [| |done].
    2:{ dict_lookup. by rewrite Hpb. }
    cbn [mbind result_bind].
    erewrite resolve_end_asAttribute; [| | exact Hnavigable | | exact Htn].
    2:{ dict_lookup. by rewrite Hpc. }
    2:{ dict_lookup. by rewrite Hpb. }
    rewrite Hname1.
    eexists _, _. split; [reflexivity|].
    cbn [calls assign emit with_properties str default String.append].
    rewrite <- app_assoc. split; [reflexivity|].
    split; [done|]. split; [done|]. split; [done|].
    split; [dict_lookup; by rewrite Hpc|].
    split; [dict_lookup; by rewrite Hpb|]. done.
Qed.
End SimpleAttribute.

Lemma simple_attribute_association_witness :
  exists st' e,
    resolve_association Examples.nothing_derives Examples.decimal p_class_name
      Examples.box_classes (Examples.initial_state Examples.box_properties)
      Examples.box_association = Ok st' /\
    calls st' = [add_comment "'Box.color' is a simple attribute"; add_attribute e true] /\
    p_name e = Some "color" /\ p_class_name e = Some "Box" /\
    p_typeValue e = Some "str" /\
    p_written <$> dict_get "p1" (properties st') = Some true /\
    p_written <$> dict_get "p2" (properties st') = Some true /\
    derivedunions st' = [] /\ redefines st' = [].
Proof.
  apply (simple_attribute_association Examples.nothing_derives Examples.decimal
           p_class_name Examples.box_classes
           (Examples.initial_state Examples.box_properties)
           Examples.box_association "p1" "p2").
  split.
  - left. reflexivity.
  - discriminate.
  - eexists _, _, _. repeat split; reflexivity.
  - eexists _, _, _. repeat split; (reflexivity || discriminate).
  - eexists _, _, _. repeat split; reflexivity.
  - eexists _, _, _. repeat split; (reflexivity || discriminate).
  - eexists. split; [reflexivity|]. left. reflexivity.
Defined.

(** The whole run on the [Box] and [Color] model: one class definition
    (the [SimpleAttribute] class is not retained), the comment and the
    attribute call of the end [color], and the final [write]. *)
Example generate_Box_Color :
  exists st e,
    generate Examples.nothing_derives Examples.decimal p_class_name
      Examples.box_classes [("a1", Examples.box_association)] Examples.box_properties
      [] [] [] None = Ok st /\
    calls st = [add_classdef Examples.Box;
                add_comment "'Box.color' is a simple attribute";
                add_attribute e true; write None header] /\
    p_class_name e = Some "Box" /\ p_typeValue e = Some "str".
Proof. eexists _, _. split; [vm_compute; reflexivity|]. repeat split. Qed.

Lemma resolve_end_classification_witness :
  exists st',
    resolve_end Examples.nothing_derives p_class_name None Examples.node_state "p1" "p2"
    = Ok st' /\
    exists p2,
      deref Examples.node_state "p2" = Ok p2 /\
      st' = emit (add_association Examples.children_parsed p2) Examples.node_state.
Proof.
  eexists. split; [reflexivity|].
  exact (resolve_end_classification Examples.nothing_derives p_class_name None
           Examples.node_state "p1" "p2" Examples.children_parsed _ eq_refl eq_refl).
Defined.

Lemma derived_union_registration_witness :
  (exists st' p,
     resolve_end Examples.owner_derives p_class_name None Examples.node_state "p2" "p1"
     = Ok st' /\
     derivedunions st' = [(Some "owner", "p2")] /\
     deref st' "p2" = Ok p /\ p_union p = Some [] /\ p_written p = false /\
     calls st' = [] /\ redefines st' = []) /\
  resolve_end Examples.nothing_derives p_class_name None Examples.member_state "p3" "p4"
  = Raise (AssertionError "B.member is already in derived union set in class A").
Proof.
  split.
  - destruct (proj2 (derived_union_registration Examples.owner_derives p_class_name
                       Examples.node_state "p2" "p1" Examples.owner_parsed
                       eq_refl eq_refl eq_refl) eq_refl)
      as (st' & p & Hrun & Hunions & _ & Hp & Hunion & Hwritten & _ & _ & Hcalls & Hred & _).
    exists st', p. repeat split; assumption.
  - destruct (deref Examples.member_state "p3") as [p3|] eqn:H3; [|by vm_compute in H3].
    destruct (deref Examples.member_state "p1") as [p1|] eqn:H1; [|by vm_compute in H1].
    pose proof (proj1 (derived_union_registration Examples.nothing_derives p_class_name
                         Examples.member_state "p3" "p4" p3 H3
                         ltac:(vm_compute in H3; injection H3 as <-; reflexivity)
                         ltac:(vm_compute in H3; injection H3 as <-; reflexivity))
                  "p1" p1
                  ltac:(vm_compute in H3; injection H3 as <-; reflexivity) H1) as H.
    vm_compute in H3, H1. injection H3 as <-. injection H1 as <-. exact H.
Defined.

(** A second derived end of the same name stops the run. *)
Example generate_duplicate_derived_union :
  generate Examples.nothing_derives Examples.decimal p_class_name
    Examples.member_classes Examples.member_associations Examples.member_properties
    [] [] [] None
  = Raise (AssertionError "B.member is already in derived union set in class A").
Proof. vm_compute. reflexivity. Qed.

(** C1, as stated, fails where it gives navigability the first rank: the
    end [owner] has no owning class, so that "non-navigable" would be its
    outcome, and the overrides declare [None.owner] derived; the generator
    registers the end as a derived union and hands it to the writer. *)
Lemma non_navigable_end_registered_as_derived_union :
  exists st p,
    generate Examples.owner_derives Examples.decimal p_class_name
      Examples.node_classes Examples.node_associations Examples.node_properties
      [] [] [] None = Ok st /\
    dict_get "p2" (properties st) = Some p /\
    truthy (p_navigable p) = false /\
    classification_navigability_first Examples.owner_derives p_class_name None p
    = NonNavigable /\
    classification Examples.owner_derives p_class_name None p = DerivedUnionMember /\
    derivedunions st = [(Some "owner", "p2")] /\
    add_derivedunion p ∈ calls st.
Proof.
  eexists _, _. split; [vm_compute; reflexivity|].
  split; [reflexivity|]. repeat split.
  apply list_elem_of_further, list_elem_of_further, list_elem_of_here.
Qed.


(** ** The derived union pass *)

Section LinkDerivedUnions.
Variable classes : dict string Class.
Implicit Types (st : state) (a : Property) (ref s : string).


Lemma link_subset_calls ref a st s :
  calls (link_subset classes ref a st s)
  = calls st ++ (if type_retained classes a
                 then if bool_decide (dict_get (Some s) (derivedunions st) = None)
                      then [not_a_derived_union a s] else []
                 else []).
Proof.
  unfold link_subset, type_retained.
  destruct (match v_type _ with Some _ => _ | None => _ end); [|by rewrite app_nil_r].
  destruct (dict_get (Some s) (derivedunions st)); simpl; [by rewrite app_nil_r | done].
Qed.

End LinkDerivedUnions.


(** The dangling subset of an end whose type is retained: one diagnostic,
    and the run goes on to the final [write]. *)
Example generate_dangling_subset :
  exists st e1 e2,
    generate Examples.nothing_derives Examples.decimal p_class_name
      Examples.node_classes Examples.node_associations
      Examples.node_properties_subsets [] [] [] None = Ok st /\
    calls st = [add_classdef Examples.Node; add_association e1 e2;
                msg "not a derived union: Node.nonexistentUnion";
                write None header].
Proof. eexists _, _, _. vm_compute. split; reflexivity. Qed.


(** ** The order of the calls on the writer *)

Lemma appends_refl P st : appends P st st.
Proof. exists []. by rewrite app_nil_r. Qed.

Lemma appends_same P st st' : calls st' = calls st -> appends P st st'.
Proof. intros H. exists []. by rewrite app_nil_r. Qed.

Lemma appends_trans P st1 st2 st3 :
  appends P st1 st2 -> appends P st2 st3 -> appends P st1 st3.
Proof.
  intros (new1 & H1 & F1) (new2 & H2 & F2). exists (new1 ++ new2).
  rewrite H2, H1, app_assoc. split; [done|]. by apply Forall_app.
Qed.

Lemma appends_emit (P : call -> Prop) c st : P c -> appends P st (emit c st).
Proof. intros Hc. exists [c]. split; [done|]. by constructor. Qed.

Lemma for_each_appends {A} P (body : state -> A -> result state) xs st st' :
  (forall st x st', body st x = Ok st' -> appends P st st') ->
  for_each body xs st = Ok st' -> appends P st st'.
Proof.
  intros Hbody. revert st. induction xs as [|x xs IH]; intros st; simpl.
  - intros [= <-]. apply appends_refl.
  - intros H. inv_bind H. eapply appends_trans; eauto.
Qed.

Lemma foldl_appends {A} P (body : state -> A -> state) xs st :
  (forall st x, appends P st (body st x)) -> appends P st (foldl body st xs).
Proof.
  intros Hbody. revert st. induction xs as [|x xs IH]; intros st; simpl.
  - apply appends_refl.
  - eapply appends_trans; eauto.
Qed.

Lemma grouped_nil G : grouped G [].
Proof. exists []. by split. Qed.

Lemma grouped_app G l1 l2 : grouped G l1 -> grouped G l2 -> grouped G (l1 ++ l2).
Proof.
  intros (g1 & -> & F1) (g2 & -> & F2). exists (g1 ++ g2).
  split; [by rewrite concat_app | by apply Forall_app].
Qed.

Lemma appends_groups_refl G st : appends_groups G st st.
Proof. exists []. rewrite app_nil_r. split; [done | apply grouped_nil]. Qed.

Lemma appends_groups_same G st st' : calls st' = calls st -> appends_groups G st st'.
Proof. intros H. exists []. rewrite app_nil_r. split; [done | apply grouped_nil]. Qed.

Lemma appends_groups_trans G st1 st2 st3 :
  appends_groups G st1 st2 -> appends_groups G st2 st3 -> appends_groups G st1 st3.
Proof.
  intros (new1 & H1 & F1) (new2 & H2 & F2). exists (new1 ++ new2).
  rewrite H2, H1, app_assoc. split; [done|]. by apply grouped_app.
Qed.

Lemma appends_group (G : list call -> Prop) g st st' :
  G g -> calls st' = calls st ++ g -> appends_groups G st st'.
Proof.
  intros Hg H. exists g. split; [done|]. exists [g]. simpl.
  rewrite app_nil_r. split; [done|]. by constructor.
Qed.

Lemma for_each_appends_groups {A} G (body : state -> A -> result state) xs st st' :
  (forall st x st', body st x = Ok st' -> appends_groups G st st') ->
  for_each body xs st = Ok st' -> appends_groups G st st'.
Proof.
  intros Hbody. revert st. induction xs as [|x xs IH]; intros st; simpl.
  - intros [= <-]. apply appends_groups_refl.
  - intros H. inv_bind H. eapply appends_groups_trans; eauto.
Qed.

(** *** The comments of the stereotype pass *)

Lemma for_each_comments {A} (body : tagging -> A -> result tagging) xs (st st' : tagging) :
  (forall st x st', body st x = Ok st' ->
     exists new, st'.2 = st.2 ++ new /\ Forall is_stereotype_comment new) ->
  for_each body xs st = Ok st' ->
  exists new, st'.2 = st.2 ++ new /\ Forall is_stereotype_comment new.
Proof.
  intros Hbody. revert st. induction xs as [|x xs IH]; intros st; simpl.
  - intros [= <-]. exists []. by rewrite app_nil_r.
  - intros H. inv_bind H. destruct (Hbody _ _ _ E) as (new1 & H1 & F1).
    destruct (IH _ H) as (new2 & H2 & F2). exists (new1 ++ new2).
    rewrite H2, H1, app_assoc. split; [done|]. by apply Forall_app.
Qed.

Lemma tag_children_comments limit name (st : tagging) me st' :
  tag_children limit name st me = Ok st' ->
  exists new, st'.2 = st.2 ++ new /\ Forall is_stereotype_comment new.
Proof.
  revert st me st'. induction limit as [|limit IH]; intros st me st'; [done|].
  cbn [tag_children]. intros H. inv_bind H. revert H. apply for_each_comments.
  clear -IH. intros st child st' H. inv_bind H. rename x into st1.
  unfold tag_child in E. inv_bind E. injection E as <-.
  destruct (IH _ _ _ H) as (new & Hnew & Fnew). cbn [snd] in Hnew.
  eexists (_ :: new). rewrite Hnew, <- app_assoc. split; [reflexivity|].
  constructor; [|done]. eexists _, _. by right.
Qed.

Lemma enrich_classes_with_stereotypes_comments limit classes all_elements classes'
    comments :
  enrich_classes_with_stereotypes limit classes all_elements = Ok (classes', comments) ->
  Forall is_stereotype_comment comments.
Proof.
  unfold enrich_classes_with_stereotypes. intros H.
  apply for_each_comments in H as (new & Hnew & Fnew); [by simpl in Hnew; subst|].
  clear. intros st ref st' H. unfold enrich_class_with_stereotype in H.
  inv_bind H. rename x into c.
  destruct (co_appliedStereotype c) as [[|applied ?]|].
  2:{ inv_bind H. inv_bind H. inv_bind H.
      apply tag_children_comments in H as (new & Hnew & Fnew). cbn [snd] in Hnew.
      eexists (_ :: new). rewrite Hnew, <- app_assoc. split; [reflexivity|].
      constructor; [|done]. eexists _, _. by left. }
  all: injection H as <-; exists []; by rewrite app_nil_r.
Qed.

Section CallOrder.
Variable derives : string -> bool.
Variable int : string -> option Z.
Variable get_class_name : Property -> option string.
Implicit Types st : state.

Lemma resolve_attributes_appends st c st' :
  resolve_attributes derives st c = Ok st' -> appends is_add_attribute st st'.
Proof.
  apply for_each_appends. clear. intros st p st'. unfold resolve_attribute.
  destruct (dict_get p (properties st)) as [a|]; [|done].
  destruct (negb _); [|by intros [= <-]; apply appends_same].
  destruct (derives _); intros [= <-].
  - by apply appends_same.
  - eapply appends_trans; [|by apply appends_emit]. by apply appends_same.
Qed.

Lemma parse_end_calls st e st' : parse_end int st e = Ok st' -> calls st' = calls st.
Proof.
  unfold parse_end. intros H. inv_bind H. inv_bind H. by injection H as <-.
Qed.

Lemma resolve_end_groups asAttribute st (e1 e2 : string) st' :
  resolve_end derives get_class_name asAttribute st e1 e2 = Ok st' ->
  appends_groups association_group st st'.
Proof.
  unfold resolve_end. intros H. inv_bind H. rename x into p1.
  destruct (bool_decide (asAttribute <> None)).
  { destruct (_ && _).
    - inv_bind H. rename x into p2. inv_bind H. rename x into name.
      inv_bind H. rename x into a. injection H as <-.
      apply deref_Ok in E2. apply deref_Ok in E. cbn [properties assign emit] in E2.
      rewrite !dict_get_update, !decide_True, E in E2 by done.
      injection E2 as <-.
      eapply appends_group.
      + by apply (simple_attribute_group
                    (set_typeValue (Some "str") (set_class_name name p1))).
      + simpl. by rewrite <- app_assoc.
    - injection H as <-. apply appends_groups_refl. }
  destruct (truthy (p_redefines p1)); [injection H as <-; by apply appends_groups_same|].
  destruct (is_derived _ _ p1).
  { destruct (dict_get _ _); [by inv_bind H|].
    injection H as <-. by apply appends_groups_same. }
  destruct (truthy (p_navigable p1)).
  - inv_bind H. injection H as <-. eapply appends_group; [constructor | done].
  - injection H as <-. apply appends_groups_refl.
Qed.

Lemma resolve_association_groups all_classes st a st' :
  resolve_association derives int get_class_name all_classes st a = Ok st' ->
  appends_groups association_group st st'.
Proof.
  unfold resolve_association. intros H. inv_bind H.
  destruct x as [[properties asAttribute] ends].
  inv_bind H. inv_bind H. inv_bind H. inv_bind H. inv_bind H.
  apply parse_end_calls in E2, E3. apply resolve_end_groups in E4, H.
  eapply appends_groups_trans; [|exact H]. eapply appends_groups_trans; [|exact E4].
  apply appends_groups_same. by rewrite E3, E2.
Qed.

Lemma link_derivedunions_diagnostics classes st :
  appends is_diagnostic st (link_derivedunions classes st).
Proof.
  unfold link_derivedunions. apply foldl_appends. clear. intros st [ref a].
  unfold link_subsets. apply foldl_appends. clear. intros st s.
  exists (if type_retained classes a
          then if bool_decide (dict_get (Some s) (derivedunions st) = None)
               then [not_a_derived_union a s] else []
          else []).
  split; [apply link_subset_calls|].
  destruct (type_retained classes a); [|done].
  destruct (bool_decide _); [|done]. constructor; [|done]. by eexists _, _.
Qed.

Lemma write_derivedattribute_appends st ref st' :
  write_derivedattribute st ref = Ok st' -> appends is_add_derived_attribute st st'.
Proof.
  unfold write_derivedattribute. intros H. inv_bind H. injection H as <-.
  by apply appends_emit.
Qed.

Lemma write_derivedunion_appends st ref st' :
  write_derivedunion st ref = Ok st' -> appends is_add_derivedunion st st'.
Proof.
  unfold write_derivedunion. intros H. inv_bind H. injection H as <-.
  by apply appends_emit.
Qed.

Lemma write_redefine_groups st ref st' :
  write_redefine st ref = Ok st' -> appends_groups redefine_group st st'.
Proof.
  unfold write_redefine. intros H. inv_bind H. injection H as <-.
  eapply appends_group; [constructor|]. simpl. by rewrite <- app_assoc.
Qed.

Lemma write_operations_appends operations st c st' :
  write_operations operations st c = Ok st' -> appends is_add_operation st st'.
Proof.
  apply for_each_appends. clear. intros st p st'. unfold write_operation.
  destruct (dict_get p operations); [|done]. intros [= <-]. by apply appends_emit.
Qed.

(** C3, amended: in a run of [generate] that returns, the writer and
    [msg] receive, in this order: the comments that the stereotype pass
    has made; the class definitions, one for each retained class; the
    attribute calls of the plain attributes; then, association by
    association and end by end, either the comment of a simple attribute
    followed at once by its attribute call, or an association call; then
    the diagnostics of the derived union pass; the attribute calls of the
    derived attributes; the derived union calls; then, for each
    redefinition, its notice followed at once by its redefine call; the
    operation calls; and one [write]. *)
Theorem generate_call_order limit classes enumerations generalizations associations
    props operations extensions all_elements outfile st :
  generate_from_buckets derives int get_class_name limit classes enumerations
    generalizations associations props operations extensions all_elements outfile
  = Ok st ->
  exists linked objects all_classes comments classdefs attributes resolved diagnostics
         derived unions redefinitions operation_calls,
    enrich_classes_with_generalizations classes generalizations = Ok linked
    /\ enrich_classes_with_stereotypes limit linked all_elements = Ok (objects, comments)
    /\ filter_out_metaclasses (class_map objects) extensions (element_map all_elements)
       = Ok all_classes
    /\ classdefs = add_classdef <$> dict_values (filter_out_simple_attributes all_classes)
    /\ calls st = comments ++ classdefs ++ attributes ++ resolved ++ diagnostics ++ derived
                  ++ unions ++ redefinitions ++ operation_calls ++ [write outfile header]
    /\ Forall is_stereotype_comment comments
    /\ Forall is_add_attribute attributes
    /\ grouped association_group resolved
    /\ Forall is_diagnostic diagnostics
    /\ Forall is_add_derived_attribute derived
    /\ Forall is_add_derivedunion unions
    /\ grouped redefine_group redefinitions
    /\ Forall is_add_operation operation_calls.
Proof.
  unfold generate_from_buckets, after_associations. intros H.
  inv_bind H. inv_bind H. rename x0 into linked.
  inv_bind H. destruct x0 as [objects comments].
  pose proof (enrich_classes_with_stereotypes_comments _ _ _ _ _ E1) as Fc.
  inv_bind H. rename x0 into all_classes.
  set (retained := filter_out_simple_attributes all_classes) in *.
  inv_bind H. inv_bind H.
  pose proof (link_derivedunions_diagnostics retained x1) as (diagnostics & Hd & Fd).
  set (x2 := link_derivedunions retained x1) in *.
  inv_bind H. inv_bind H. inv_bind H. inv_bind H. injection H as <-.
  apply (for_each_appends is_add_attribute) in E3 as (attributes & Ha & Fa);
    [|apply resolve_attributes_appends].
  apply (for_each_appends_groups association_group) in E4 as (resolved & Hr & Fr);
    [|apply resolve_association_groups].
  apply (for_each_appends is_add_derived_attribute) in E5 as (derived & Hda & Fda);
    [|apply write_derivedattribute_appends].
  apply (for_each_appends is_add_derivedunion) in E6 as (unions & Hu & Fu);
    [|apply write_derivedunion_appends].
  apply (for_each_appends_groups redefine_group) in E7 as (redefinitions & Hre & Fre);
    [|apply write_redefine_groups].
  apply (for_each_appends is_add_operation) in E8 as (ops & Ho & Fo);
    [|apply write_operations_appends].
  exists linked, objects, all_classes, comments, (add_classdef <$> dict_values retained),
    attributes, resolved, diagnostics, derived, unions, redefinitions, ops.
  split; [done|]. split; [done|]. split; [done|]. split; [done|]. split.
  - simpl. rewrite Ho, Hre, Hu, Hda, Hd, Hr, Ha. simpl.
    by rewrite <- !app_assoc.
  - repeat split; done.
Qed.
End CallOrder.

Lemma generate_call_order_witness :
  exists st,
    generate_from_buckets Examples.shape_derives Examples.decimal p_class_name 100
      Examples.shape_objects [] Examples.shape_generalizations Examples.shape_associations
      Examples.shape_properties [] [] Examples.shape_elements None = Ok st /\
    exists comments classdefs attributes resolved diagnostics derived unions redefinitions
           operation_calls,
      calls st = comments ++ classdefs ++ attributes ++ resolved ++ diagnostics ++ derived
                 ++ unions ++ redefinitions ++ operation_calls ++ [write None header]
      /\ comments = [add_comment "class 'Shape' has been stereotyped as 'Figure'";
                     add_comment "class 'Circle' has been stereotyped as 'Figure' too";
                     add_comment "class 'Color' has been stereotyped as 'SimpleAttribute'"]
      /\ classdefs = [add_classdef (Examples.class "c1" "Shape" (Some "Figure")
                                      (Some ["p0"; "p1"; "p3"; "p5"]));
                      add_classdef (Examples.class "c2" "Canvas" None None);
                      add_classdef (Examples.class "c4" "Circle" (Some "Figure")
                                      (Some ["p7"]))]
      /\ Forall is_add_attribute attributes
      /\ grouped association_group resolved
      /\ Forall is_diagnostic diagnostics
      /\ Forall is_add_derived_attribute derived
      /\ Forall is_add_derivedunion unions
      /\ grouped redefine_group redefinitions
      /\ Forall is_add_operation operation_calls.
Proof.
  eexists. split; [vm_compute; reflexivity|].
  destruct (generate_call_order Examples.shape_derives Examples.decimal p_class_name 100
              Examples.shape_objects [] Examples.shape_generalizations
              Examples.shape_associations Examples.shape_properties [] []
              Examples.shape_elements None _ ltac:(vm_compute; reflexivity))
    as (linked & objects & all_classes & comments & classdefs & attributes & resolved
        & diagnostics & derived & unions & redefinitions & ops
        & Hlinked & Hobjects & Hfilter & Hclassdefs & Hcalls & Hrest).
  vm_compute in Hlinked. injection Hlinked as <-.
  vm_compute in Hobjects. injection Hobjects as <- <-.
  vm_compute in Hfilter. injection Hfilter as <-.
  eexists _, classdefs, attributes, resolved, diagnostics, derived, unions, redefinitions,
    ops.
  split; [exact Hcalls|]. split; [reflexivity|]. split; [|exact (proj2 Hrest)].
  rewrite Hclassdefs. vm_compute. reflexivity.
Defined.

(** C3, as stated, fails: in the run on the [Shape] model, after the
    three comments of the stereotype pass and the three class
    definitions, an association call (group 3) precedes the attribute
    calls of a simple attribute and of a derived attribute (group 2), and
    the derived union call (group 5) precedes the redefine call
    (group 4). *)
Lemma generate_calls_out_of_group_order :
  exists st e1 e2 color area part center,
    generate_from_buckets Examples.shape_derives Examples.decimal p_class_name 100
      Examples.shape_objects [] Examples.shape_generalizations Examples.shape_associations
      Examples.shape_properties [] [] Examples.shape_elements None = Ok st /\
    calls st = [add_comment "class 'Shape' has been stereotyped as 'Figure'";
                add_comment "class 'Circle' has been stereotyped as 'Figure' too";
                add_comment "class 'Color' has been stereotyped as 'SimpleAttribute'";
                add_classdef (Examples.class "c1" "Shape" (Some "Figure")
                                (Some ["p0"; "p1"; "p3"; "p5"]));
                add_classdef (Examples.class "c2" "Canvas" None None);
                add_classdef (Examples.class "c4" "Circle" (Some "Figure") (Some ["p7"]));
                add_association e1 e2;
                add_comment "'Shape.color' is a simple attribute";
                add_attribute color true;
                add_attribute area false;
                add_derivedunion part;
                msg "redefining shape -> Circle.center";
                add_redefine center;
                write None header] /\
    omap group (calls st) = [1; 1; 1; 3; 2; 2; 5; 4; 7].
Proof. eexists _, _, _, _, _, _, _. split; [vm_compute; reflexivity|]. split; reflexivity. Qed.


(** ** Object references are never dangling

    [DanglingReference] stands for a failure that the source cannot have.
    The run never raises it: the references that the passes follow are keys
    of the object store. *)

Lemma for_each_safe {A S} (I : S -> Prop) (Q : A -> Prop)
    (body : S -> A -> result S) xs s :
  (forall s x, I s -> Q x -> safe I (body s x)) ->
  Forall Q xs -> I s -> safe I (for_each body xs s).
Proof.
  intros Hbody HQ. revert s. induction HQ as [|x xs Hx HQ IH]; intros s Hs; simpl; [done|].
  specialize (Hbody s x Hs Hx). destruct (body s x); simpl in *; [by apply IH | done].
Qed.

Lemma safe_bind {A B} (I : A -> Prop) (J : B -> Prop) (m : result A)
    (f : A -> result B) :
  safe I m -> (forall a, I a -> safe J (f a)) -> safe J (m ≫= f).
Proof. destruct m; simpl; auto. Qed.

Lemma extension_ends_raises all_elements memberEnd e :
  extension_ends all_elements memberEnd = Raise e -> is_KeyError e.
Proof.
  induction memberEnd as [|r memberEnd IH]; cbn [extension_ends]; [done|].
  destruct (getitem all_elements (Some r)) as [end_|e1] eqn:E1; cbn [mbind result_bind].
  2:{ intros [= <-]. apply getitem_raises in E1. by eexists. }
  destruct (truthy (el_type end_)); [|done].
  destruct (getitem all_elements (el_type end_)) as [ty|e2] eqn:E2; cbn [mbind result_bind].
  2:{ intros [= <-]. apply getitem_raises in E2. by eexists. }
  destruct (extension_ends all_elements memberEnd); cbn [mbind result_bind]; [done|].
  intros [= <-]. by apply IH.
Qed.

Lemma filter_out_metaclasses_raises classes extensions all_elements e :
  filter_out_metaclasses classes extensions all_elements = Raise e -> is_KeyError e.
Proof.
  unfold filter_out_metaclasses. apply for_each_raises. clear.
  intros classes x e. unfold filter_out_metaclass.
  destruct (extension_ends all_elements (x_memberEnd x)) as [[|[? ty] ends]|e1] eqn:E;
    simpl; [done| |].
  - unfold delitem. destruct (dict_in _ _); [done|]. intros [= <-]. by eexists.
  - intros [= <-]. by apply extension_ends_raises in E.
Qed.

Section WellFormed.
Variable derives : string -> bool.
Variable int : string -> option Z.
Variable get_class_name : Property -> option string.
Variable K : list string.
Implicit Types st : state.

Lemma well_formed_assign st ref f : well_formed K st -> well_formed K (assign ref f st).
Proof. intros [HK Hrefs]. split; [|done]. simpl. by rewrite dict_keys_update. Qed.

Lemma well_formed_emit st c : well_formed K st -> well_formed K (emit c st).
Proof. by intros [HK Hrefs]. Qed.

Lemma well_formed_deref st ref :
  well_formed K st -> ref ∈ K -> exists p, deref st ref = Ok p.
Proof.
  intros [HK _] Href. rewrite <- HK in Href. apply dict_get_key in Href as [p Hp].
  exists p. by apply deref_Ok.
Qed.

Lemma well_formed_derivedunion st name d :
  well_formed K st -> dict_get name (derivedunions st) = Some d -> d ∈ K.
Proof.
  intros [_ Hrefs] Hd. rewrite Forall_forall in Hrefs. apply Hrefs.
  rewrite !elem_of_app. right. left. apply dict_get_Some_elem in Hd.
  unfold dict_values. apply list_elem_of_fmap. by exists (name, d).
Qed.

Lemma well_formed_register_derivedunion st name ref :
  well_formed K st -> ref ∈ K -> well_formed K (register_derivedunion name ref st).
Proof.
  intros [HK Hrefs] Href. split; [done|]. simpl.
  rewrite Forall_forall in Hrefs. rewrite Forall_forall. intros x. rewrite !elem_of_app.
  intros [H|[H|H]]; [| |]; try (apply Hrefs; rewrite !elem_of_app; tauto).
  apply dict_values_set in H as [->|H]; [done|].
  apply Hrefs. rewrite !elem_of_app. tauto.
Qed.

Lemma well_formed_register_derivedattribute st name ref :
  well_formed K st -> ref ∈ K -> well_formed K (register_derivedattribute name ref st).
Proof.
  intros [HK Hrefs] Href. split; [done|]. simpl.
  rewrite Forall_forall in Hrefs. rewrite Forall_forall. intros x. rewrite !elem_of_app.
  intros [H|[H|H]]; [| |]; try (apply Hrefs; rewrite !elem_of_app; tauto).
  apply dict_values_set in H as [->|H]; [done|].
  apply Hrefs. rewrite !elem_of_app. tauto.
Qed.

Lemma well_formed_append_redefine st ref :
  well_formed K st -> ref ∈ K -> well_formed K (append_redefine ref st).
Proof.
  intros [HK Hrefs] Href. split; [done|]. simpl.
  rewrite !app_assoc. apply Forall_app. split; [by rewrite <- !app_assoc|].
  by constructor.
Qed.

Lemma resolve_attributes_safe st c :
  well_formed K st -> safe (well_formed K) (resolve_attributes derives st c).
Proof.
  unfold resolve_attributes. apply (for_each_safe _ (fun _ => True)); [|by apply Forall_true].
  intros st0 p Hwf _. unfold resolve_attribute.
  destruct (dict_get p (properties st0)) as [a|] eqn:Hp; [|done].
  assert (p ∈ K) as HpK.
  { destruct Hwf as [<- _]. by apply dict_get_Some_key in Hp. }
  destruct (negb _); simpl; [|by apply well_formed_assign].
  destruct (derives _); simpl.
  - apply well_formed_register_derivedattribute; [by apply well_formed_assign | done].
  - by apply well_formed_emit, well_formed_assign.
Qed.

Lemma parse_association_end_not_dangling head e :
  parse_association_end int head = Raise e -> not_dangling e.
Proof.
  unfold parse_association_end. destruct (negb _); [done|].
  destruct (p_name _); [|by intros [= <-]].
  destruct (parse_association_tags _) as [[subsets redefines]|e1] eqn:Htags; simpl.
  2:{ intros [= <-]. by apply parse_association_tags_raises in Htags as [m ->]. }
  destruct (p_class_ head); simpl; [|by intros [= <-]].
  destruct (p_type head); simpl; [|by intros [= <-]].
  unfold int_isDerived. simpl.
  destruct (truthy (v_isDerived (p_values head))); [|done].
  destruct (int _); simpl; [done | by intros [= <-]].
Qed.

Lemma parse_end_safe st e :
  well_formed K st -> e ∈ K -> safe (well_formed K) (parse_end int st e).
Proof.
  intros Hwf He. unfold parse_end.
  destruct (well_formed_deref _ _ Hwf He) as [p ->]. simpl.
  destruct (parse_association_end int p) eqn:E; simpl.
  - by apply well_formed_assign.
  - by apply parse_association_end_not_dangling in E.
Qed.

Lemma resolve_end_safe asAttribute st (e1 e2 : string) :
  well_formed K st -> e1 ∈ K -> e2 ∈ K ->
  safe (well_formed K) (resolve_end derives get_class_name asAttribute st e1 e2).
Proof.
  intros Hwf H1 H2. unfold resolve_end.
  destruct (well_formed_deref _ _ Hwf H1) as [p1 ->]. simpl.
  destruct (well_formed_deref _ _ Hwf H2) as [p2 Hp2].
  destruct (bool_decide (asAttribute <> None)).
  { destruct (_ && _); [|done]. rewrite Hp2. simpl.
    unfold type_name. destruct (p_type p2); simpl; [|done].
    match goal with |- context [deref ?s e1] =>
      destruct (well_formed_deref s e1) as [p1' ->]; [|done|]
    end.
    { by repeat first [apply well_formed_assign | apply well_formed_emit]. }
    simpl. by repeat first [apply well_formed_assign | apply well_formed_emit]. }
  destruct (truthy (p_redefines p1)); simpl; [by apply well_formed_append_redefine|].
  destruct (is_derived _ _ p1).
  { destruct (dict_get (p_name p1) (derivedunions st)) as [d|] eqn:Hd.
    - pose proof (well_formed_derivedunion _ _ _ Hwf Hd) as HdK.
      destruct (well_formed_deref _ _ Hwf HdK) as [pd ->]. done.
    - simpl. apply well_formed_assign, well_formed_assign.
      by apply well_formed_register_derivedunion. }
  destruct (truthy (p_navigable p1)); [|done].
  rewrite Hp2. simpl. by apply well_formed_emit.
Qed.

Lemma get_association_ends_keys classes memberEnd properties asAttribute ends
    properties' asAttribute' ends' :
  for_each (get_association_end classes) memberEnd (properties, asAttribute, ends)
  = Ok (properties', asAttribute', ends') ->
  dict_keys properties' = dict_keys properties /\
  (Forall (fun e => e ∈ dict_keys properties) ends ->
   Forall (fun e => e ∈ dict_keys properties) ends').
Proof.
  revert properties asAttribute ends.
  induction memberEnd as [|r memberEnd IH]; intros properties asAttribute ends; simpl.
  - by intros [= <- <- <-].
  - intros H. inv_bind H. destruct x as [[props1 asAttribute1] ends1].
    apply IH in H as [Hkeys Hends]. unfold get_association_end in E.
    inv_bind E. inv_bind E. inv_bind E. injection E as <- <- <-.
    rewrite dict_keys_update in *. split; [done|].
    intros Hall. apply Hends, Forall_app. split; [done|].
    constructor; [|done]. unfold getitem in E0.
    destruct (dict_get r properties) eqn:Hr; [|done]. by apply dict_get_Some_key in Hr.
Qed.

Lemma resolve_association_safe all_classes st a :
  well_formed K st ->
  safe (well_formed K) (resolve_association derives int get_class_name all_classes st a).
Proof.
  intros Hwf. unfold resolve_association, get_association_ends.
  destruct (for_each _ _ _) as [[[properties asAttribute] ends]|e] eqn:E; simpl.
  2:{ apply (for_each_raises is_KeyError) in E as [k ->]; [done|].
      intros acc r e'. apply get_association_end_raises. }
  apply get_association_ends_keys in E as [Hkeys Hends].
  specialize (Hends ltac:(constructor)).
  assert (well_formed K (with_properties properties st)) as Hwf'.
  { destruct Hwf as [HK Hrefs]. split; [|done]. simpl. by rewrite Hkeys. }
  assert (forall i e, ends !! i = Some e -> e ∈ K) as HendsK.
  { intros i e Hi. destruct Hwf as [<- _]. rewrite Forall_forall in Hends.
    apply Hends. by eapply list_elem_of_lookup_2. }
  unfold tuple_index.
  destruct (ends !! 0) as [e0|] eqn:H0; simpl; [|done].
  destruct (ends !! 1) as [e1|] eqn:H1; simpl; [|done].
  apply HendsK in H0, H1.
  eapply safe_bind; [by apply parse_end_safe|]. intros st1 Hst1.
  eapply safe_bind; [by apply parse_end_safe|]. intros st2 Hst2.
  eapply safe_bind; [by apply resolve_end_safe|]. intros st3 Hst3.
  by apply resolve_end_safe.
Qed.

Lemma link_derivedunions_well_formed classes st :
  well_formed K st -> well_formed K (link_derivedunions classes st).
Proof.
  unfold link_derivedunions. generalize (properties st) at 1. intros entries.
  revert st. induction entries as [|[ref a] entries IH]; intros st Hwf; simpl; [done|].
  apply IH. unfold link_subsets. generalize (default [] (p_subsets a)). intros subsets.
  clear IH. revert st Hwf. induction subsets as [|s subsets IH]; intros st Hwf; simpl; [done|].
  apply IH. unfold link_subset.
  destruct (match v_type _ with Some _ => _ | None => _ end); [|done].
  destruct (dict_get _ _); [by apply well_formed_assign | by apply well_formed_emit].
Qed.

Lemma well_formed_registries st :
  well_formed K st ->
  Forall (fun ref => ref ∈ K) (dict_values (derivedattributes st)) /\
  Forall (fun ref => ref ∈ K) (dict_values (derivedunions st)) /\
  Forall (fun ref => ref ∈ K) (redefines st).
Proof. intros [_ Hrefs]. by rewrite !Forall_app in Hrefs. Qed.

Lemma write_safe (body : state -> string -> result state) refs st :
  (forall st ref p, deref st ref = Ok p ->
     exists c1 calls', body st ref = Ok (emit c1 calls') /\
                       (well_formed K st -> well_formed K calls')) ->
  Forall (fun ref => ref ∈ K) refs -> well_formed K st ->
  safe (well_formed K) (for_each body refs st).
Proof.
  intros Hbody. apply for_each_safe. clear st. intros st ref Hwf Href.
  destruct (well_formed_deref _ _ Hwf Href) as [p Hp].
  destruct (Hbody _ _ _ Hp) as (c1 & st' & -> & Hst'). simpl.
  by apply well_formed_emit, Hst'.
Qed.

Lemma generate_safe classes associations properties operations extensions
    all_elements outfile :
  K = dict_keys properties ->
  safe (fun _ => True)
    (generate derives int get_class_name classes associations properties operations
       extensions all_elements outfile).
Proof.
  intros HK. unfold generate.
  apply (safe_bind (fun _ => True)).
  { destruct (filter_out_metaclasses _ _ _) eqn:E; simpl; [done|].
    by apply filter_out_metaclasses_raises in E as [k ->]. }
  intros all_classes _.
  set (retained := filter_out_simple_attributes all_classes).
  apply (safe_bind (well_formed K)).
  { apply (for_each_safe _ (fun _ => True)); [|by apply Forall_true|by split].
    intros st c Hwf _. by apply resolve_attributes_safe. }
  intros st1 Hst1. apply (safe_bind (well_formed K)).
  { apply (for_each_safe _ (fun _ => True)); [|by apply Forall_true|done].
    intros st a Hwf _. by apply resolve_association_safe. }
  intros st2 Hst2. apply (link_derivedunions_well_formed retained) in Hst2.
  apply (safe_bind (well_formed K)).
  { apply write_safe; [|by apply well_formed_registries|done]. intros st ref p Hp.
    unfold write_derivedattribute. rewrite Hp. simpl. eauto. }
  intros st3 Hst3. apply (safe_bind (well_formed K)).
  { apply write_safe; [|by apply well_formed_registries|done]. intros st ref p Hp.
    unfold write_derivedunion. rewrite Hp. simpl. eauto. }
  intros st4 Hst4. apply (safe_bind (well_formed K)).
  { apply write_safe; [|by apply well_formed_registries|done]. intros st ref p Hp.
    unfold write_redefine. rewrite Hp. simpl. eexists _, _. split; [done|].
    apply well_formed_emit. }
  intros st5 Hst5. apply (safe_bind (well_formed K)); [|done].
  apply (for_each_safe _ (fun _ => True)); [|by apply Forall_true|done].
  intros st c Hwf _. unfold write_operations.
  apply (for_each_safe _ (fun _ => True)); [|by apply Forall_true|done].
  intros st' p Hwf' _. unfold write_operation.
  destruct (dict_get p operations); simpl; [by apply well_formed_emit | done].
Qed.
End WellFormed.

(** [generate] never fails on an object reference. *)
Lemma generate_not_dangling derives int get_class_name classes associations
    properties operations extensions all_elements outfile ref :
  generate derives int get_class_name classes associations properties operations
    extensions all_elements outfile <> Raise (DanglingReference ref).
Proof.
  intros H.
  pose proof (generate_safe derives int get_class_name (dict_keys properties) classes
                associations properties operations extensions all_elements outfile
                eq_refl) as Hsafe.
  by rewrite H in Hsafe.
Qed.
